(** * igdbapi: the query builder, the client and the response wrapper

    A shallow embedding of [igdbapi/core.py].  Python values are given a
    small universe, exceptions are a sum type, and the three things the
    module does not own (the JSON decoder, the HTTP transport with the
    [errors.check] screen, and the builtin [hash]) are gathered in one
    interface, [External], over which every statement is quantified. *)

From Stdlib Require Import ZArith List String Ascii Bool Lia DecimalString.
Import ListNotations.
Set Warnings "-register-all".
Open Scope string_scope.
Open Scope Z_scope.

(** ** Python preliminaries *)

(** The double quote as a one-character string. *)
Definition dq : string := String (ascii_of_nat 34) EmptyString.

(** [s] between double quotes. *)
Definition quoted (s : string) : string := dq ++ s ++ dq.

(** [str(n)] and [format] of an [int]: decimal, a leading [-] when negative. *)
Definition str_int (n : Z) : string := NilZero.string_of_int (Z.to_int n).

(** Truth value of a [str]: every string but the empty one. *)
Definition truthy (s : string) : bool := negb (s =? EmptyString)%string.

(** [sep.join(l)]. *)
Definition join (sep : string) (l : list string) : string :=
  String.concat sep l.

(** [l.append(x)], as a new list. *)
Definition append {A : Type} (l : list A) (x : A) : list A := (l ++ [x])%list.

(** Exceptions.  Those the module raises itself carry their message; those
    raised by the interpreter or by the libraries are kept by class. *)
Inductive exn : Type :=
| ValueError (msg : string)
| APIError (msg : string)
| TypeError
| AttributeError
| JSONDecodeError
| RequestException
| OtherError (cls : string) (msg : string).

Inductive result (A : Type) : Type :=
| Ok (a : A)
| Raise (e : exn).
Arguments Ok {A} a.
Arguments Raise {A} e.

Definition rbind {A B : Type} (r : result A) (k : A -> result B) : result B :=
  match r with
  | Ok a => k a
  | Raise e => Raise e
  end.

Notation "x <- r ;; k" := (rbind r (fun x => k))
  (at level 61, r at next level, right associativity).

(** ** Insertion-ordered dictionaries with [str] keys *)

Module Dict.

Definition t (V : Type) : Type := list (string * V).

(** [d[k] = v]: a known key keeps its place and takes the new value, a new
    key goes last. *)
Fixpoint set {V : Type} (d : t V) (k : string) (v : V) : t V :=
  match d with
  | [] => [(k, v)]
  | (k', v') :: r =>
      if (k =? k')%string then (k', v) :: r else (k', v') :: set r k v
  end.

Fixpoint get {V : Type} (d : t V) (k : string) : option V :=
  match d with
  | [] => None
  | (k', v') :: r => if (k =? k')%string then Some v' else get r k
  end.

Definition mem {V : Type} (d : t V) (k : string) : bool :=
  match get d k with Some _ => true | None => false end.

(** [dict(pairs)]. *)
Definition of_pairs {V : Type} (ps : list (string * V)) : t V :=
  fold_left (fun d kv => set d (fst kv) (snd kv)) ps [].

Definition keys {V : Type} (d : t V) : list string := map fst d.

End Dict.

(** ** Values produced by the decoder *)

(** A JSON document as the decoder reads it: the members of an object in
    the order of the text, duplicates included.  A float is carried by its
    literal; nothing in the module looks inside one. *)
Inductive json : Type :=
| JNull
| JBool (b : bool)
| JInt (n : Z)
| JFloat (lit : string)
| JStr (s : string)
| JArr (items : list json)
| JObj (members : list (string * json)).

(** The Python values [json.loads] can return under the module's hook:
    [None], [bool], [int], [float], [str], [list] and
    [argparse.Namespace], the last one by its attribute dictionary. *)
Inductive pyval : Type :=
| PNone
| PBool (b : bool)
| PInt (n : Z)
| PFloat (lit : string)
| PStr (s : string)
| PList (items : list pyval)
| PNamespace (attrs : Dict.t pyval).

(** [setattr(ns, name, value)] on a [Namespace] whose attributes are
    [attrs].  Three names are slots of the object model and refuse a value
    that is neither a class nor a [dict]; no [pyval] is one. *)
Definition setattr (attrs : Dict.t pyval) (name : string) (value : pyval)
  : result (Dict.t pyval) :=
  if (name =? "__class__")%string then Raise TypeError
  else if (name =? "__dict__")%string then Raise TypeError
  else if (name =? "__weakref__")%string then Raise AttributeError
  else Ok (Dict.set attrs name value).

(** The loop of [Namespace.__init__]: [for name in kwargs: setattr(...)]. *)
Fixpoint Namespace_init (attrs : Dict.t pyval) (kwargs : Dict.t pyval)
  : result (Dict.t pyval) :=
  match kwargs with
  | [] => Ok attrs
  | (name, value) :: rest =>
      attrs' <- setattr attrs name value ;;
      Namespace_init attrs' rest
  end.

(** [Namespace] called on a dictionary unpacked into keywords.  The first
    parameter of [__init__] is [self], so a keyword of that name collides
    with the receiver and the call is refused before the body runs. *)
Definition Namespace (kwargs : Dict.t pyval) : result pyval :=
  if Dict.mem kwargs "self" then Raise TypeError
  else attrs <- Namespace_init [] kwargs ;; Ok (PNamespace attrs).

(** [record.name] for a name stored on the record. *)
Definition getattr (v : pyval) (name : string) : result pyval :=
  match v with
  | PNamespace attrs =>
      match Dict.get attrs name with
      | Some x => Ok x
      | None => Raise AttributeError
      end
  | _ => Raise AttributeError
  end.

(** [json.loads(..., object_hook=hook)] once the text is read: arrays become
    lists, every object is handed to [hook] as a [dict] after its members
    were converted, in the order of the text. *)
Fixpoint loads_with (hook : Dict.t pyval -> result pyval) (j : json)
  : result pyval :=
  match j with
  | JNull => Ok PNone
  | JBool b => Ok (PBool b)
  | JInt n => Ok (PInt n)
  | JFloat lit => Ok (PFloat lit)
  | JStr s => Ok (PStr s)
  | JArr items =>
      l <- (fix go (js : list json) : result (list pyval) :=
              match js with
              | [] => Ok []
              | x :: r => v <- loads_with hook x ;; vs <- go r ;; Ok (v :: vs)
              end) items ;;
      Ok (PList l)
  | JObj members =>
      ps <- (fix go (ms : list (string * json))
               : result (list (string * pyval)) :=
               match ms with
               | [] => Ok []
               | (k, x) :: r =>
                   v <- loads_with hook x ;; vs <- go r ;; Ok ((k, v) :: vs)
               end) members ;;
      hook (Dict.of_pairs ps)
  end.

(** The two loops of [loads_with], by name. *)
Definition loads_items (hook : Dict.t pyval -> result pyval)
  : list json -> result (list pyval) :=
  fix go (js : list json) : result (list pyval) :=
    match js with
    | [] => Ok []
    | x :: r => v <- loads_with hook x ;; vs <- go r ;; Ok (v :: vs)
    end.

Definition loads_members (hook : Dict.t pyval -> result pyval)
  : list (string * json) -> result (list (string * pyval)) :=
  fix go (ms : list (string * json)) : result (list (string * pyval)) :=
    match ms with
    | [] => Ok []
    | (k, x) :: r =>
        v <- loads_with hook x ;; vs <- go r ;; Ok ((k, v) :: vs)
    end.

(** ** The world outside the module *)

Record request : Type := mkRequest {
  url : string;
  body : string;
  req_headers : Dict.t (option string);
  allow_redirects : bool
}.

Record http_response : Type := mkHttpResponse {
  status_code : Z;
  text : string
}.

(** What the module calls and does not define: the decoder of [json]
    ([JSONDecodeError] and the like on a text it refuses), [requests.post]
    (which sees the requests already sent), [errors.check], and the builtin
    [hash] on the values an id takes. *)
Class External : Type := {
  json_decode : string -> result json;
  requests_post : list request -> request -> result http_response;
  errors_check : http_response -> option exn;
  py_hash : option Z -> Z
}.

(** ** [class APIResponse] *)

Module APIResponse.

Record t : Type := mk { _response : string }.

Definition _json_object_hook (d : Dict.t pyval) : result pyval :=
  Namespace d.

(** The [response] property: the text as received. *)
Definition response (self : t) : string := _response self.

Section Methods.
Context `{External}.

Definition json2obj (self : t) (data : string) : result pyval :=
  j <- json_decode data ;; loads_with _json_object_hook j.

Definition json_response (self : t) : result pyval :=
  json2obj self (_response self).

Definition as_collection (self : t) : result pyval :=
  json_response self.

Definition as_single_result (self : t) : result pyval :=
  json_response <- json_response self ;;
  match json_response with
  | PList l =>
      match l with
      | [] => Ok PNone
      | first :: _ =>
          if Z.of_nat (List.length l) =? 1 then Ok first
          else
            let nb_results := Z.of_nat (List.length l) in
            Raise (APIError ("Expected single result, found "
                             ++ str_int nb_results))
      end
  | _ => Ok json_response
  end.

End Methods.

End APIResponse.

(** ** [class APIClient] *)

Definition V3_ENDPOINT : string := "https://api-v3.igdb.com/".

Module APIClient.

Record t : Type := mk {
  _api_key : option string;
  _command : option string;
  _data : option string;
  _headers : Dict.t (option string)
}.

Definition __init__ (api_key : option string) : result t :=
  let self :=
    {| _api_key := api_key;
       _command := None;
       _data := None;
       _headers := [("Accept", Some "application/json; charset=UTF-8");
                    ("user-key", api_key)] |} in
  match api_key with
  | None => Raise (ValueError "You must set an API key.")
  | Some _ => Ok self
  end.

(** The four read-only properties. *)
Definition command (self : t) : option string := _command self.

Definition data (self : t) : option string := _data self.

Definition api_key (self : t) : option string := _api_key self.

Definition headers (self : t) : Dict.t (option string) := _headers self.

(** [format] prints an unset command as [None]. *)
Definition __str__ (self : t) : string :=
  let v3_endpoint := V3_ENDPOINT in
  v3_endpoint ++ match _command self with Some c => c | None => "None" end.

Section Methods.
Context `{External}.

(** [call] in state-passing form: the receiver after the call, the
    requests sent so far, and what the call returns or raises.  [data]
    is the sequence of clauses; the empty [dict] that [meta] passes is
    the empty sequence. *)
Definition call (self : t) (command : string) (data : list string)
           (sent : list request)
  : t * list request * result APIResponse.t :=
  let self := {| _api_key := _api_key self; _command := Some command;
                 _data := _data self; _headers := _headers self |} in
  let base_url := __str__ self in
  let payload :=
    match data with
    | _ :: _ => join "; " data ++ ";"
    | [] => EmptyString
    end in
  let self := {| _api_key := _api_key self; _command := _command self;
                 _data := Some payload; _headers := _headers self |} in
  let req := {| url := base_url; body := payload;
                req_headers := _headers self;
                allow_redirects := false |} in
  match requests_post sent req with
  | Raise e => (self, (sent ++ [req])%list, Raise e)
  | Ok response =>
      match errors_check response with
      | Some e => (self, (sent ++ [req])%list, Raise e)
      | None =>
          (self, (sent ++ [req])%list, Ok (APIResponse.mk (text response)))
      end
  end.

End Methods.

End APIClient.

(** ** The process *)

(** What a run of the module can change outside its arguments: the one
    client of the process, the requests sent, the lines printed. *)
Record world : Type := mkWorld {
  instance : option APIClient.t;
  sent : list request;
  stdout : list string
}.

(** Modelled from the spec: the [Singleton] decorator of [decorators.py],
    which is not among the sources.  The spec has a "process-wide single
    instance, constructed once with an API key": the first call constructs
    the client with the key it is given, every later call returns that
    client and ignores its argument. *)
Definition Singleton_call (api_key : option string) (w : world)
  : world * result APIClient.t :=
  match instance w with
  | Some client => (w, Ok client)
  | None =>
      match APIClient.__init__ api_key with
      | Ok client =>
          ({| instance := Some client; sent := sent w; stdout := stdout w |},
           Ok client)
      | Raise e => (w, Raise e)
      end
  end.

Definition print (w : world) (lines : list string) : world :=
  {| instance := instance w; sent := sent w;
     stdout := (stdout w ++ lines)%list |}.

(** ** [class APIObject] *)

Module APIObject.

(** An instance of [APIObject] or of a class derived from it; [clsname]
    is [self.__class__.__name__]. *)
Record t : Type := mk {
  clsname : string;
  _command : option string;
  _id : option Z
}.

(** [__init__], for the class [cls]. *)
Definition __init__ (cls : string) : t :=
  {| clsname := cls; _command := None; _id := None |}.

Definition id (self : t) : option Z := _id self.

Definition command (self : t) : option string := _command self.

(** The [fields] argument: a [str], or a [list] of [str] (on which
    [map(str, ...)] changes nothing). *)
Inductive fields_arg : Type :=
| FieldsStr (s : string)
| FieldsList (l : list string).

(** The keyword arguments of [find]; [None] is the unset [entity] and the
    unset [entity_id]. *)
Record find_args : Type := mkArgs {
  entity : option string;
  fields : fields_arg;
  exclude : string;
  search : string;
  entity_id : option Z;
  name : string;
  slug : string;
  filters : string;
  limit : Z;
  sort : string;
  one : bool
}.

(** The defaults of the signature. *)
Definition defaults : find_args :=
  {| entity := None; fields := FieldsStr "*"; exclude := EmptyString;
     search := EmptyString; entity_id := None; name := EmptyString;
     slug := EmptyString; filters := EmptyString; limit := 0;
     sort := EmptyString; one := false |}.

Definition set_limit (a : find_args) (l : Z) : find_args :=
  {| entity := entity a; fields := fields a; exclude := exclude a;
     search := search a; entity_id := entity_id a; name := name a;
     slug := slug a; filters := filters a; limit := l; sort := sort a;
     one := one a |}.

Definition set_entity_id (a : find_args) (i : option Z) : find_args :=
  {| entity := entity a; fields := fields a; exclude := exclude a;
     search := search a; entity_id := i; name := name a;
     slug := slug a; filters := filters a; limit := limit a;
     sort := sort a; one := one a |}.

Definition set_fields (a : find_args) (f : fields_arg) : find_args :=
  {| entity := entity a; fields := f; exclude := exclude a;
     search := search a; entity_id := entity_id a; name := name a;
     slug := slug a; filters := filters a; limit := limit a;
     sort := sort a; one := one a |}.


(** Lines 156 to 181 of [find]: the list [data] handed to the client and
    the lines printed on the way. *)
Definition find_data (a : find_args) : list string * list string :=
  let fields :=
    match fields a with
    | FieldsList l => join "," l
    | FieldsStr s => s
    end in
  let data := ["fields " ++ fields] in
  let data :=
    if truthy (exclude a)
    then append data ("exclude " ++ exclude a) else data in
  let data :=
    if truthy (search a)
    then append data ("search " ++ quoted (search a)) else data in
  let data :=
    match entity_id a with
    | Some i => append data ("where id = " ++ str_int i)
    | None => data
    end in
  let data :=
    if truthy (name a)
    then append data ("where name = " ++ quoted (name a)) else data in
  let data :=
    if truthy (slug a)
    then append data ("where slug = " ++ quoted (slug a)) else data in
  let data :=
    if truthy (filters a) then append data (filters a) else data in
  let '(data, printed) :=
    if limit a =? 0 then (data, [])
    else
      let '(limit', printed) :=
        if limit a >? 500
        then (500, ["Limit (" ++ str_int (limit a)
                    ++ ") set to maximum allowed (500)."])
        else (limit a, []) in
      (append data ("limit " ++ str_int limit'), printed) in
  let data :=
    if truthy (sort a) then append data ("sort " ++ sort a) else data in
  (data, printed).

Section Methods.
Context `{External}.

Definition __hash__ (self : t) : Z := py_hash (id self).

Definition __eq__ (self other : t) : bool :=
  __hash__ self =? __hash__ other.

Definition __ne__ (self other : t) : bool := negb (__eq__ self other).

(** [find], in state-passing form: the receiver, the world, and the
    value returned or the exception raised. *)
Definition find (self : t) (a : find_args) (w : world)
  : t * world * result pyval :=
  match entity a with
  | None =>
      (self, w,
       Raise (ValueError ("Plase specify entity (" ++ quoted "game"
                          ++ ", " ++ quoted "platform" ++ ", etc)")))
  | Some entity =>
      let self := {| clsname := clsname self;
                     _command := Some (entity ++ "/");
                     _id := _id self |} in
      let '(data, printed) := find_data a in
      let w := print w printed in
      match Singleton_call None w with
      | (w, Raise e) => (self, w, Raise e)
      | (w, Ok client) =>
          let '(client, sent', query) :=
            APIClient.call client (entity ++ "/") data (sent w) in
          let w := {| instance := Some client; sent := sent';
                      stdout := stdout w |} in
          match query with
          | Raise e => (self, w, Raise e)
          | Ok query =>
              if one a
              then (self, w, APIResponse.as_single_result query)
              else (self, w, APIResponse.as_collection query)
          end
      end
  end.


(** [meta]; adding a [str] to an unset command is a [TypeError]. *)
Definition meta (self : t) (w : world) : world * result pyval :=
  match _command self with
  | None => (w, Raise TypeError)
  | Some c =>
      let command := c ++ "/meta" in
      match Singleton_call None w with
      | (w, Raise e) => (w, Raise e)
      | (w, Ok client) =>
          let '(client, sent', query) :=
            APIClient.call client command [] (sent w) in
          let w := {| instance := Some client; sent := sent';
                      stdout := stdout w |} in
          match query with
          | Raise e => (w, Raise e)
          | Ok query => (w, APIResponse.as_collection query)
          end
      end
  end.

End Methods.

End APIObject.

(** ** [class ESRB] *)

Module ESRB.

Inductive t : Type := RP | EC | E | E10plus | T | M | AO.

Definition value (self : t) : Z :=
  match self with
  | RP => 1 | EC => 2 | E => 3 | E10plus => 4 | T => 5 | M => 6 | AO => 7
  end.

(** What [__str__] returns: the member's value, an [int]. *)
Definition __str__ (self : t) : pyval := PInt (value self).

End ESRB.

(** The builtin [str(obj)] for an object whose class defines [__str__]:
    the method's result when it is a [str], a [TypeError] otherwise. *)
Definition py_str {A : Type} (dunder_str : A -> pyval) (obj : A)
  : result string :=
  match dunder_str obj with
  | PStr s => Ok s
  | _ => Raise TypeError
  end.

(** ** An instance of the interface, to run the module on examples *)

Module Demo.

(** A reader for the fragment of JSON made of [null], [true], [false],
    integers, strings without escapes, arrays and objects.  It stands for
    the decoder on the texts of the examples and refuses everything
    else. *)
Inductive token : Type :=
| TLBracket | TRBracket | TLBrace | TRBrace | TComma | TColon
| TString (s : string) | TNumber (n : Z) | TTrue | TFalse | TNull.

Definition is_digit (c : ascii) : bool :=
  ((48 <=? nat_of_ascii c) && (nat_of_ascii c <=? 57))%nat.

Definition is_space (c : ascii) : bool :=
  let n := nat_of_ascii c in
  ((n =? 32) || (n =? 9) || (n =? 10) || (n =? 13))%nat.

Fixpoint read_string (s : string) : option (string * string) :=
  match s with
  | EmptyString => None
  | String c r =>
      if (nat_of_ascii c =? 34)%nat then Some (EmptyString, r)
      else if (nat_of_ascii c =? 92)%nat then None
      else match read_string r with
           | Some (x, r') => Some (String c x, r')
           | None => None
           end
  end.

Fixpoint read_digits (s : string) (acc : Z) : Z * string :=
  match s with
  | EmptyString => (acc, s)
  | String c r =>
      if is_digit c
      then read_digits r (10 * acc + Z.of_nat (nat_of_ascii c - 48))
      else (acc, s)
  end.

Definition strip (p s : string) : option string :=
  if String.prefix p s
  then Some (String.substring (String.length p)
               (String.length s - String.length p) s)
  else None.

Definition push (tok : token) (r : option (list token))
  : option (list token) :=
  match r with Some ts => Some (tok :: ts) | None => None end.

Fixpoint lex (fuel : nat) (s : string) : option (list token) :=
  match fuel with
  | O => None
  | S fuel =>
      match s with
      | EmptyString => Some []
      | String c r =>
          if is_space c then lex fuel r
          else if (c =? "[")%char then push TLBracket (lex fuel r)
          else if (c =? "]")%char then push TRBracket (lex fuel r)
          else if (c =? "{")%char then push TLBrace (lex fuel r)
          else if (c =? "}")%char then push TRBrace (lex fuel r)
          else if (c =? ",")%char then push TComma (lex fuel r)
          else if (c =? ":")%char then push TColon (lex fuel r)
          else if (nat_of_ascii c =? 34)%nat then
            match read_string r with
            | Some (x, r') => push (TString x) (lex fuel r')
            | None => None
            end
          else if is_digit c then
            let '(n, r') := read_digits s 0 in
            if String.length r' <? String.length s
            then push (TNumber n) (lex fuel r') else None
          else if (c =? "-")%char then
            let '(n, r') := read_digits r 0 in
            if String.length r' <? String.length r
            then push (TNumber (- n)) (lex fuel r') else None
          else
            match strip "true" s, strip "false" s, strip "null" s with
            | Some r', _, _ => push TTrue (lex fuel r')
            | _, Some r', _ => push TFalse (lex fuel r')
            | _, _, Some r' => push TNull (lex fuel r')
            | _, _, _ => None
            end
      end
  end%nat.

Fixpoint parse_value (fuel : nat) (ts : list token)
  : option (json * list token) :=
  match fuel with
  | O => None
  | S fuel =>
      match ts with
      | TNull :: r => Some (JNull, r)
      | TTrue :: r => Some (JBool true, r)
      | TFalse :: r => Some (JBool false, r)
      | TNumber n :: r => Some (JInt n, r)
      | TString s :: r => Some (JStr s, r)
      | TLBracket :: TRBracket :: r => Some (JArr [], r)
      | TLBracket :: r =>
          match parse_items fuel r with
          | Some (vs, r') => Some (JArr vs, r')
          | None => None
          end
      | TLBrace :: TRBrace :: r => Some (JObj [], r)
      | TLBrace :: r =>
          match parse_members fuel r with
          | Some (ms, r') => Some (JObj ms, r')
          | None => None
          end
      | _ => None
      end
  end
with parse_items (fuel : nat) (ts : list token)
  : option (list json * list token) :=
  match fuel with
  | O => None
  | S fuel =>
      match parse_value fuel ts with
      | Some (v, TRBracket :: r) => Some ([v], r)
      | Some (v, TComma :: r) =>
          match parse_items fuel r with
          | Some (vs, r') => Some (v :: vs, r')
          | None => None
          end
      | _ => None
      end
  end
with parse_members (fuel : nat) (ts : list token)
  : option (list (string * json) * list token) :=
  match fuel with
  | O => None
  | S fuel =>
      match ts with
      | TString k :: TColon :: r =>
          match parse_value fuel r with
          | Some (v, TRBrace :: r') => Some ([(k, v)], r')
          | Some (v, TComma :: r') =>
              match parse_members fuel r' with
              | Some (ms, r'') => Some ((k, v) :: ms, r'')
              | None => None
              end
          | _ => None
          end
      | _ => None
      end
  end.

Definition decode (s : string) : result json :=
  match lex (S (String.length s)) s with
  | Some ts =>
      match parse_value (2 * List.length ts + 2) ts with
      | Some (j, []) => Ok j
      | _ => Raise JSONDecodeError
      end
  | None => Raise JSONDecodeError
  end.

(** The hash of an [int] in CPython on 64 bits, and a constant for
    [None]. *)
Definition hash (v : option Z) : Z :=
  match v with
  | None => 4238894112
  | Some n =>
      let h := Z.sgn n * (Z.abs n mod (2 ^ 61 - 1)) in
      if h =? -1 then -2 else h
  end.

(** A server that answers every request with status [status] and body
    [answer], and a screen that lets the status 200 through. *)
Definition env (status : Z) (answer : string) : External :=
  {| json_decode := decode;
     requests_post := fun _ _ =>
       Ok {| status_code := status; text := answer |};
     errors_check := fun r =>
       if status_code r =? 200 then None
       else Some (APIError ("status " ++ str_int (status_code r)));
     py_hash := hash |}.

(** A world where the client was constructed with the key [key]. *)
Definition world_with_key (key : string) : world :=
  fst (Singleton_call (Some key)
         {| instance := None; sent := []; stdout := [] |}).

Definition client (key : string) : APIClient.t :=
  {| APIClient._api_key := Some key;
     APIClient._command := None;
     APIClient._data := None;
     APIClient._headers :=
       [("Accept", Some "application/json; charset=UTF-8");
        ("user-key", Some key)] |}.

(** A query that fills every place but the name and the slug. *)
Definition query (l : Z) : APIObject.find_args :=
  {| APIObject.entity := Some "games";
     APIObject.fields := APIObject.FieldsList ["id"; "name"];
     APIObject.exclude := "summary";
     APIObject.search := "zelda";
     APIObject.entity_id := Some 0;
     APIObject.name := EmptyString;
     APIObject.slug := EmptyString;
     APIObject.filters := "where rating > 75";
     APIObject.limit := l;
     APIObject.sort := "name asc";
     APIObject.one := false |}.

(** Two entities of different classes with the id 1. *)
Definition game : APIObject.t :=
  {| APIObject.clsname := "Game"; APIObject._command := None;
     APIObject._id := Some 1 |}.

Definition platform : APIObject.t :=
  {| APIObject.clsname := "Platform"; APIObject._command := None;
     APIObject._id := Some 1 |}.

(** Response texts: no record, one record, two records, one object, and
    an object with a member called [self]. *)
Definition no_record : string := "[]".
Definition one_record : string := "[{" ++ quoted "id" ++ ":1}]".
Definition two_records : string :=
  "[{" ++ quoted "id" ++ ":1},{" ++ quoted "id" ++ ":2}]".
Definition one_object : string :=
  "{" ++ quoted "count" ++ ": 7}".
Definition self_link : string :=
  "{" ++ quoted "id" ++ ": 1, " ++ quoted "self" ++ ": "
  ++ quoted "/games/1" ++ "}".

(** An object that names [id] twice, and a text that stops too early. *)
Definition twice_named : string :=
  "{" ++ quoted "id" ++ ": 1, " ++ quoted "tags" ++ ": [" ++ quoted "a"
  ++ ", " ++ quoted "b" ++ "], " ++ quoted "id" ++ ": 3}".


End Demo.

(** ** The clause list as the specification lays it out *)

Module Clauses.
Import APIObject.

(** A clause that is there when [b] holds. *)
Definition when (b : bool) (clause : string) : option string :=
  if b then Some clause else None.

(** The text after [fields]: the string as given, a list joined by
    commas. *)
Definition fields_text (a : find_args) : string :=
  match fields a with
  | FieldsStr s => s
  | FieldsList l => join "," l
  end.

(** The nine places of the specification, in its order; a place is empty
    when its argument is empty, zero or unset.  The limit is printed
    after the cap at 500. *)
Definition clause_slots (a : find_args) : list (option string) :=
  [ Some ("fields " ++ fields_text a);
    when (truthy (exclude a)) ("exclude " ++ exclude a);
    when (truthy (search a)) ("search " ++ quoted (search a));
    option_map (fun i => "where id = " ++ str_int i) (entity_id a);
    when (truthy (name a)) ("where name = " ++ quoted (name a));
    when (truthy (slug a)) ("where slug = " ++ quoted (slug a));
    when (truthy (filters a)) (filters a);
    when (negb (limit a =? 0)) ("limit " ++ str_int (Z.min (limit a) 500));
    when (truthy (sort a)) ("sort " ++ sort a) ].

(** The clauses of the places that are filled, in order. *)
Fixpoint present (slots : list (option string)) : list string :=
  match slots with
  | [] => []
  | Some clause :: r => clause :: present r
  | None :: r => present r
  end.

(** The warning printed for a limit above the maximum. *)
Definition limit_warning (l : Z) : string :=
  "Limit (" ++ str_int l ++ ") set to maximum allowed (500).".

(** The request [call] posts for a command and a list of clauses, with
    the headers [h]. *)
Definition posted (h : Dict.t (option string)) (command : string)
           (clauses : list string) : request :=
  {| url := V3_ENDPOINT ++ command;
     body := match clauses with
             | [] => EmptyString
             | _ :: _ => join "; " clauses ++ ";"
             end;
     req_headers := h;
     allow_redirects := false |}.

End Clauses.

(** ** The conversion of a document as the specification words it *)

(** Names [Namespace] cannot take as a keyword or store as an attribute. *)
Definition reserved (k : string) : bool :=
  ((k =? "self") || (k =? "__class__") || (k =? "__dict__")
   || (k =? "__weakref__"))%string.

(** No object of the document, at any depth, has a reserved name among its
    members. *)
Fixpoint plain_keys (j : json) : bool :=
  match j with
  | JArr items => forallb plain_keys items
  | JObj members =>
      forallb (fun kv => negb (reserved (fst kv)) && plain_keys (snd kv))
              members
  | _ => true
  end.

(** Objects to records, arrays to lists in the same order, scalars as they
    are. *)
Fixpoint to_record (j : json) : pyval :=
  match j with
  | JNull => PNone
  | JBool b => PBool b
  | JInt n => PInt n
  | JFloat lit => PFloat lit
  | JStr s => PStr s
  | JArr items => PList (map to_record items)
  | JObj members =>
      PNamespace
        (Dict.of_pairs (map (fun kv => (fst kv, to_record (snd kv))) members))
  end.

(** The member a name denotes in an object: the last one written with it. *)
Fixpoint field {V : Type} (members : list (string * V)) (k : string)
  : option V :=
  match members with
  | [] => None
  | (k', v) :: r =>
      match field r k with
      | Some x => Some x
      | None => if (k =? k')%string then Some v else None
      end
  end.

(** The client as [__init__] leaves it for the key [key], up to the command
    and the body of the last call. *)
Definition constructed_with (key : string) (c : APIClient.t) : Prop :=
  APIClient._api_key c = Some key /\
  APIClient._headers c =
    [("Accept", Some "application/json; charset=UTF-8");
     ("user-key", Some key)].

(** An induction principle that reaches the items of arrays and the
    members of objects. *)
Fixpoint json_nested_ind (P : json -> Prop)
         (Hnull : P JNull) (Hbool : forall b, P (JBool b))
         (Hint : forall n, P (JInt n)) (Hfloat : forall lit, P (JFloat lit))
         (Hstr : forall s, P (JStr s))
         (Harr : forall items, Forall P items -> P (JArr items))
         (Hobj : forall members,
             Forall (fun kv => P (snd kv)) members -> P (JObj members))
         (j : json) {struct j} : P j :=
  let rec := json_nested_ind P Hnull Hbool Hint Hfloat Hstr Harr Hobj in
  match j with
  | JNull => Hnull
  | JBool b => Hbool b
  | JInt n => Hint n
  | JFloat lit => Hfloat lit
  | JStr s => Hstr s
  | JArr items =>
      Harr items
        ((fix all (l : list json) : Forall P l :=
            match l with
            | [] => Forall_nil P
            | x :: r => Forall_cons x (rec x) (all r)
            end) items)
  | JObj members =>
      Hobj members
        ((fix all (l : list (string * json))
            : Forall (fun kv => P (snd kv)) l :=
            match l with
            | [] => Forall_nil _
            | kv :: r => Forall_cons kv (rec (snd kv)) (all r)
            end) members)
  end.


(** The two errors [Namespace] raises on a name it cannot take. *)
Definition refusal (e : exn) : Prop := e = TypeError \/ e = AttributeError.

(** * Properties *)

(** ** Dictionaries *)

Section DictFacts.
Context {V : Type}.
Implicit Types (d : Dict.t V) (k : string) (v : V).

Lemma get_set d k v k' :
  Dict.get (Dict.set d k v) k' =
    if (k' =? k)%string then Some v else Dict.get d k'.
Proof.
  induction d as [| [k0 v0] r IH]; cbn.
  - reflexivity.
  - destruct (String.eqb_spec k k0) as [-> | Hk]; cbn.
    + destruct (k' =? k0)%string; reflexivity.
    + rewrite IH. destruct (String.eqb_spec k' k0) as [-> | Hk'].
      * destruct (String.eqb_spec k0 k); [congruence | reflexivity].
      * reflexivity.
Qed.

Lemma get_fold (ps : list (string * V)) d k :
  Dict.get (fold_left (fun d kv => Dict.set d (fst kv) (snd kv)) ps d) k =
    match field ps k with
    | Some v => Some v
    | None => Dict.get d k
    end.
Proof.
  revert d; induction ps as [| [k0 v0] r IH]; intros d; cbn.
  - reflexivity.
  - rewrite IH, get_set.
    destruct (field r k); [reflexivity |].
    destruct (k =? k0)%string; reflexivity.
Qed.

(** Reading a dictionary built from pairs gives the last pair of the
    name. *)
Lemma get_of_pairs (ps : list (string * V)) k :
  Dict.get (Dict.of_pairs ps) k = field ps k.
Proof.
  unfold Dict.of_pairs. rewrite get_fold. now destruct (field ps k).
Qed.

Lemma field_in (ps : list (string * V)) k :
  In k (map fst ps) <-> field ps k <> None.
Proof.
  induction ps as [| [k0 v0] r IH]; cbn.
  - split; [intros [] | congruence].
  - destruct (field r k) eqn:Hf.
    + split; [discriminate | intros _; right; apply IH; discriminate].
    + destruct (String.eqb_spec k k0) as [-> | Hk].
      * split; [discriminate | auto].
      * split; [| congruence].
        intros [Heq | Hin]; [congruence | now apply IH in Hin].
Qed.

Lemma get_in d k : In k (Dict.keys d) <-> Dict.get d k <> None.
Proof.
  unfold Dict.keys. induction d as [| [k0 v0] r IH]; cbn.
  - split; [intros [] | congruence].
  - destruct (String.eqb_spec k k0) as [-> | Hk].
    + split; [discriminate | auto].
    + rewrite <- IH.
      split; [intros [Heq | Hin]; [congruence | exact Hin] | auto].
Qed.

Lemma set_fresh d k v :
  ~ In k (Dict.keys d) -> Dict.set d k v = (d ++ [(k, v)])%list.
Proof.
  unfold Dict.keys. induction d as [| [k0 v0] r IH]; cbn; intros Hn.
  - reflexivity.
  - destruct (String.eqb_spec k k0) as [-> | Hk]; [tauto |].
    rewrite IH by tauto. reflexivity.
Qed.

Lemma keys_set d k v :
  Dict.keys (Dict.set d k v) =
    if Dict.mem d k then Dict.keys d else (Dict.keys d ++ [k])%list.
Proof.
  unfold Dict.keys, Dict.mem. induction d as [| [k0 v0] r IH]; cbn.
  - reflexivity.
  - destruct (String.eqb_spec k k0) as [-> | Hk]; cbn; [reflexivity |].
    rewrite IH. now destruct (Dict.get r k).
Qed.

Lemma keys_set_nodup d k v :
  NoDup (Dict.keys d) -> NoDup (Dict.keys (Dict.set d k v)).
Proof.
  intros Hd. rewrite keys_set. unfold Dict.mem.
  destruct (Dict.get d k) eqn:Hg; [exact Hd |].
  apply NoDup_app; [exact Hd | constructor; [intros [] | constructor] |].
  intros x Hx [<- | []]. apply get_in in Hx. congruence.
Qed.

Lemma keys_of_pairs_nodup (ps : list (string * V)) :
  NoDup (Dict.keys (Dict.of_pairs ps)).
Proof.
  unfold Dict.of_pairs.
  assert (Hgen : forall d, NoDup (Dict.keys d) ->
            NoDup (Dict.keys
              (fold_left (fun d kv => Dict.set d (fst kv) (snd kv)) ps d))).
  { induction ps as [| [k0 v0] r IH]; intros d Hd; cbn; [exact Hd |].
    apply IH, keys_set_nodup, Hd. }
  apply Hgen. constructor.
Qed.

Lemma keys_of_pairs (ps : list (string * V)) k :
  In k (Dict.keys (Dict.of_pairs ps)) <-> In k (map fst ps).
Proof. now rewrite get_in, get_of_pairs, field_in. Qed.

End DictFacts.

(** ** Records *)

Lemma reserved_false (k : string) :
  reserved k = false ->
  k <> "self" /\ k <> "__class__" /\ k <> "__dict__" /\ k <> "__weakref__".
Proof.
  unfold reserved. rewrite !orb_false_iff, !String.eqb_neq. tauto.
Qed.

Lemma setattr_plain (attrs : Dict.t pyval) (k : string) (v : pyval) :
  reserved k = false -> setattr attrs k v = Ok (Dict.set attrs k v).
Proof.
  intros Hk. apply reserved_false in Hk. destruct Hk as (_ & H1 & H2 & H3).
  unfold setattr.
  apply String.eqb_neq in H1, H2, H3. now rewrite H1, H2, H3.
Qed.

(** [Namespace.__init__] copies a dictionary without reserved names. *)
Lemma Namespace_init_plain (kwargs attrs : Dict.t pyval) :
  forallb (fun kv => negb (reserved (fst kv))) kwargs = true ->
  NoDup (Dict.keys attrs ++ Dict.keys kwargs) ->
  Namespace_init attrs kwargs = Ok (attrs ++ kwargs)%list.
Proof.
  revert attrs; induction kwargs as [| [k v] r IH]; intros attrs Hp Hn; cbn.
  - now rewrite app_nil_r.
  - cbn in Hp. apply andb_prop in Hp. destruct Hp as [Hk Hr].
    apply negb_true_iff in Hk; cbn in Hk.
    rewrite (setattr_plain _ _ _ Hk); cbn [rbind].
    assert (Hfresh : ~ In k (Dict.keys attrs)).
    { cbn in Hn. apply NoDup_remove_2 in Hn.
      intros Hin. apply Hn, in_or_app. now left. }
    rewrite (set_fresh _ _ _ Hfresh), IH.
    + now rewrite <- app_assoc.
    + exact Hr.
    + unfold Dict.keys in *. rewrite map_app, <- app_assoc. exact Hn.
Qed.

Lemma Namespace_plain (kwargs : Dict.t pyval) :
  forallb (fun kv => negb (reserved (fst kv))) kwargs = true ->
  NoDup (Dict.keys kwargs) ->
  Namespace kwargs = Ok (PNamespace kwargs).
Proof.
  intros Hp Hn. unfold Namespace.
  assert (Hself : Dict.mem kwargs "self" = false).
  { unfold Dict.mem. destruct (Dict.get kwargs "self") eqn:Hg; [| reflexivity].
    assert (Hin : In "self" (Dict.keys kwargs))
      by (apply get_in; congruence).
    unfold Dict.keys in Hin. apply in_map_iff in Hin.
    destruct Hin as ([k v] & Hk & Hin); cbn in Hk; subst k.
    rewrite forallb_forall in Hp. specialize (Hp _ Hin). discriminate Hp. }
  rewrite Hself, (Namespace_init_plain kwargs []); [reflexivity | exact Hp |].
  exact Hn.
Qed.

(** A keyword called [self] is refused. *)
Lemma Namespace_self (kwargs : Dict.t pyval) :
  In "self" (Dict.keys kwargs) -> Namespace kwargs = Raise TypeError.
Proof.
  intros Hin. apply get_in in Hin. unfold Namespace, Dict.mem.
  destruct (Dict.get kwargs "self"); [reflexivity | congruence].
Qed.

(** Whatever [Namespace] returns is a record. *)
Lemma Namespace_returns_record (kwargs : Dict.t pyval) (v : pyval) :
  Namespace kwargs = Ok v -> exists attrs, v = PNamespace attrs.
Proof.
  unfold Namespace. destruct (Dict.mem kwargs "self"); [discriminate |].
  destruct (Namespace_init [] kwargs) as [attrs | e]; cbn; [| discriminate].
  intros [= <-]. now exists attrs.
Qed.

(** ** The decoder with the hook *)

Section Loads.
Variable hook : Dict.t pyval -> result pyval.

Lemma loads_array (items : list json) :
  loads_with hook (JArr items) =
    (l <- loads_items hook items ;; Ok (PList l)).
Proof. reflexivity. Qed.

Lemma loads_object (members : list (string * json)) :
  loads_with hook (JObj members) =
    (ps <- loads_members hook members ;; hook (Dict.of_pairs ps)).
Proof. reflexivity. Qed.

Lemma loads_items_cons (x : json) (r : list json) :
  loads_items hook (x :: r) =
    (v <- loads_with hook x ;; vs <- loads_items hook r ;; Ok (v :: vs)).
Proof. reflexivity. Qed.

Lemma loads_members_cons (k : string) (x : json)
      (r : list (string * json)) :
  loads_members hook ((k, x) :: r) =
    (v <- loads_with hook x ;; vs <- loads_members hook r ;;
     Ok ((k, v) :: vs)).
Proof. reflexivity. Qed.

(** A list comes out of an array item by item, in order. *)
Lemma loads_items_forall2 (items : list json) (l : list pyval) :
  loads_items hook items = Ok l ->
  Forall2 (fun x v => loads_with hook x = Ok v) items l.
Proof.
  revert l; induction items as [| x r IH]; intros l.
  - intros [= <-]. constructor.
  - rewrite loads_items_cons.
    destruct (loads_with hook x) as [v | e] eqn:Hx; cbn; [| discriminate].
    destruct (loads_items hook r) as [vs | e]; cbn; [| discriminate].
    intros [= <-]. constructor; [exact Hx | now apply IH].
Qed.

Lemma loads_members_names (members : list (string * json))
      (ps : list (string * pyval)) :
  loads_members hook members = Ok ps -> map fst ps = map fst members.
Proof.
  revert ps; induction members as [| [k x] r IH]; intros ps.
  - intros [= <-]. reflexivity.
  - rewrite loads_members_cons.
    destruct (loads_with hook x) as [v | e]; cbn; [| discriminate].
    destruct (loads_members hook r) as [vs | e]; cbn; [| discriminate].
    intros [= <-]. cbn. now rewrite (IH vs).
Qed.

End Loads.

(** Under the module's hook a list comes from an array and from nothing
    else. *)
Lemma loads_list_is_array (j : json) (l : list pyval) :
  loads_with APIResponse._json_object_hook j = Ok (PList l) ->
  exists items, j = JArr items.
Proof.
  destruct j as [| b | n | lit | s | items | members]; try discriminate.
  - intros _. now exists items.
  - rewrite loads_object.
    destruct (loads_members _ members) as [ps | e]; cbn; [| discriminate].
    intros Hn. apply Namespace_returns_record in Hn.
    destruct Hn as [attrs Hn]. discriminate Hn.
Qed.

(** On a document without reserved names the decoder with the hook is the
    conversion of the specification. *)
Lemma loads_plain (j : json) :
  plain_keys j = true ->
  loads_with APIResponse._json_object_hook j = Ok (to_record j).
Proof.
  induction j as [| b | n | lit | s | items IH | members IH]
    using json_nested_ind; intros Hp; try reflexivity.
  - rewrite loads_array. cbn [to_record].
    assert (Hl : loads_items APIResponse._json_object_hook items =
                 Ok (map to_record items)).
    { cbn [plain_keys] in Hp. induction IH as [| x r Hx _ IHr].
      - reflexivity.
      - cbn in Hp. apply andb_prop in Hp. destruct Hp as [Hpx Hpr].
        rewrite loads_items_cons, (Hx Hpx); cbn [rbind].
        rewrite (IHr Hpr). reflexivity. }
    rewrite Hl. reflexivity.
  - rewrite loads_object. cbn [to_record].
    set (conv := map (fun kv : string * json =>
                        (fst kv, to_record (snd kv))) members).
    assert (Hl : loads_members APIResponse._json_object_hook members =
                 Ok conv).
    { subst conv. cbn [plain_keys] in Hp. induction IH as [| [k x] r Hx _ IHr].
      - reflexivity.
      - cbn in Hp. apply andb_prop in Hp. destruct Hp as [Hpx Hpr].
        apply andb_prop in Hpx. destruct Hpx as [_ Hpx].
        rewrite loads_members_cons. cbn [snd] in Hx.
        rewrite (Hx Hpx); cbn [rbind].
        rewrite (IHr Hpr). reflexivity. }
    rewrite Hl; cbn [rbind]. unfold APIResponse._json_object_hook.
    apply Namespace_plain; [| apply keys_of_pairs_nodup].
    apply forallb_forall. intros [k v] Hin. cbn [fst].
    assert (Hk : In k (map fst conv)).
    { apply keys_of_pairs. unfold Dict.keys.
      apply in_map_iff. now exists (k, v). }
    subst conv. rewrite map_map in Hk; cbn [fst] in Hk.
    apply in_map_iff in Hk. destruct Hk as ([k' x] & Hkk & Hin').
    cbn in Hkk; subst k'.
    cbn [plain_keys] in Hp. rewrite forallb_forall in Hp.
    specialize (Hp _ Hin'). cbn [fst] in Hp.
    apply andb_prop in Hp. tauto.
Qed.

Lemma field_map {A B : Type} (f : A -> B) (ms : list (string * A))
      (k : string) :
  field (map (fun kv => (fst kv, f (snd kv))) ms) k =
    option_map f (field ms k).
Proof.
  induction ms as [| [k0 v0] r IH]; cbn; [reflexivity |].
  rewrite IH. destruct (field r k); cbn; [reflexivity |].
  now destruct (k =? k0)%string.
Qed.

(** ** The response wrapper *)

Section Response.
Context `{External}.
Import APIResponse.

Lemma json_response_unfold (self : t) :
  json_response self =
    (j <- json_decode (_response self) ;;
     loads_with _json_object_hook j).
Proof. reflexivity. Qed.

(** C2.  Once the text is parsed, with [j] the document and [v] its
    value: for an empty array [as_single_result] returns [None] and does
    not raise; for an array of one item it returns that item's record;
    for a longer array it raises [APIError] with the count in the
    message; for anything but an array it returns the value. *)
Theorem as_single_result_by_length (self : t) (j : json) (v : pyval) :
  json_decode (_response self) = Ok j ->
  loads_with _json_object_hook j = Ok v ->
  (j = JArr [] -> as_single_result self = Ok PNone) /\
  (forall x, j = JArr [x] ->
     exists r, loads_with _json_object_hook x = Ok r /\
               v = PList [r] /\ as_single_result self = Ok r) /\
  (forall items, j = JArr items -> (1 < List.length items)%nat ->
     as_single_result self =
       Raise (APIError ("Expected single result, found "
                        ++ str_int (Z.of_nat (List.length items))))) /\
  ((forall items, j <> JArr items) -> as_single_result self = Ok v).
Proof.
  intros Hdec Hload.
  assert (Hresp : json_response self = Ok v)
    by (rewrite json_response_unfold, Hdec; exact Hload).
  unfold as_single_result. rewrite Hresp; cbn [rbind].
  split; [| split; [| split]].
  - intros ->. cbn in Hload. injection Hload as <-. reflexivity.
  - intros x ->. rewrite loads_array in Hload.
    destruct (loads_items _ [x]) as [l |] eqn:Hl; cbn in Hload;
      [| discriminate].
    injection Hload as <-.
    apply loads_items_forall2 in Hl.
    inversion Hl as [| x' r l' l'' Hx Hrest]; subst.
    inversion Hrest; subst.
    exists r. split; [exact Hx | split; reflexivity].
  - intros items -> Hlen. rewrite loads_array in Hload.
    destruct (loads_items _ items) as [l |] eqn:Hl; cbn in Hload;
      [| discriminate].
    injection Hload as <-.
    apply loads_items_forall2, Forall2_length in Hl.
    rewrite Hl in Hlen |- *.
    destruct l as [| a [| b l]]; cbn in Hlen; try lia.
    destruct (Z.eqb_spec (Z.of_nat (List.length (a :: b :: l))) 1)
      as [Hone | _]; [cbn [List.length] in Hone; lia | reflexivity].
  - intros Hnot. destruct v as [| | | | | l |]; try reflexivity.
    apply loads_list_is_array in Hload. destruct Hload as [items ->].
    now destruct (Hnot items).
Qed.

(** A text the decoder or the hook refuses: the error goes through. *)
Lemma as_single_result_error (self : t) (e : exn) :
  json_response self = Raise e -> as_single_result self = Raise e.
Proof. intros Hr. unfold as_single_result. now rewrite Hr. Qed.

(** C8.  An object with a member called [self]: when the members
    convert, the hook passes them to [Namespace] as keywords, the keyword
    [self] is refused, and [json2obj] raises [TypeError] in place of
    returning a record. *)
Theorem json2obj_refuses_member_named_self (self : t) (data : string)
        (members : list (string * json)) :
  json_decode data = Ok (JObj members) ->
  In "self" (map fst members) ->
  forallb (fun kv => plain_keys (snd kv)) members = true ->
  json2obj self data = Raise TypeError.
Proof.
  intros Hdec Hin Hplain. unfold json2obj. rewrite Hdec; cbn [rbind].
  rewrite loads_object.
  destruct (loads_members _json_object_hook members) as [ps | e] eqn:Hl.
  - cbn [rbind]. apply Namespace_self, keys_of_pairs.
    now rewrite (loads_members_names _ _ _ Hl).
  - exfalso. clear Hin Hdec. revert e Hl.
    induction members as [| [k x] r IH]; intros e; [discriminate |].
    cbn in Hplain. apply andb_prop in Hplain. destruct Hplain as [Hx Hr].
    rewrite loads_members_cons, (loads_plain x Hx); cbn [rbind].
    destruct (loads_members _json_object_hook r) as [vs | e'] eqn:Hl';
      cbn; [discriminate |].
    intros _. now apply (IH Hr e').
Qed.

(** What does hold.  On a text whose document has no reserved name,
    [json2obj] returns the conversion of the specification: objects at
    every depth are records, arrays are lists of the converted items in
    the order of the text, scalars are themselves. *)
Theorem json2obj_on_plain_documents (self : t) (data : string) (j : json) :
  json_decode data = Ok j ->
  plain_keys j = true ->
  json2obj self data = Ok (to_record j).
Proof.
  intros Hdec Hp. unfold json2obj. rewrite Hdec; cbn [rbind].
  now apply loads_plain.
Qed.

End Response.

(** A list keeps the items of its array in their places. *)
Lemma to_record_array (items : list json) (i : nat) :
  exists l, to_record (JArr items) = PList l /\
            List.length l = List.length items /\
            nth_error l i = option_map to_record (nth_error items i).
Proof.
  exists (map to_record items). repeat split.
  - apply length_map.
  - apply nth_error_map.
Qed.

(** Reading an attribute of a record gives the conversion of the member of
    that name, the last one when the name is written twice. *)
Lemma to_record_getattr (members : list (string * json)) (k : string) :
  getattr (to_record (JObj members)) k =
    match field members k with
    | Some x => Ok (to_record x)
    | None => Raise AttributeError
    end.
Proof.
  cbn [to_record getattr].
  rewrite get_of_pairs, (field_map to_record).
  now destruct (field members k).
Qed.

Lemma as_single_result_by_length_witness :
  @APIResponse.as_single_result (Demo.env 200 EmptyString)
    (APIResponse.mk Demo.no_record)
    = Ok PNone /\
  @APIResponse.as_single_result (Demo.env 200 EmptyString)
    (APIResponse.mk Demo.one_record)
    = Ok (PNamespace [("id", PInt 1)]) /\
  @APIResponse.as_single_result (Demo.env 200 EmptyString)
    (APIResponse.mk Demo.two_records)
    = Raise (APIError "Expected single result, found 2") /\
  @APIResponse.as_single_result (Demo.env 200 EmptyString)
    (APIResponse.mk Demo.one_object)
    = Ok (PNamespace [("count", PInt 7)]).
Proof.
  pose (E := Demo.env 200 EmptyString).
  split; [| split; [| split]].
  - exact (proj1 (@as_single_result_by_length E
                    (APIResponse.mk Demo.no_record) (JArr []) (PList [])
                    eq_refl eq_refl) eq_refl).
  - destruct (proj1 (proj2 (@as_single_result_by_length E
                    (APIResponse.mk Demo.one_record)
                    (JArr [JObj [("id", JInt 1)]])
                    (PList [PNamespace [("id", PInt 1)]])
                    eq_refl eq_refl)) _ eq_refl) as (r & Hr & _ & Hs).
    injection Hr as <-. exact Hs.
  - exact (proj1 (proj2 (proj2 (@as_single_result_by_length E
                    (APIResponse.mk Demo.two_records)
                    (JArr [JObj [("id", JInt 1)]; JObj [("id", JInt 2)]])
                    (PList [PNamespace [("id", PInt 1)];
                            PNamespace [("id", PInt 2)]])
                    eq_refl eq_refl))) _ eq_refl (le_n 2)).
  - refine (proj2 (proj2 (proj2 (@as_single_result_by_length E
                    (APIResponse.mk Demo.one_object)
                    (JObj [("count", JInt 7)])
                    (PNamespace [("count", PInt 7)])
                    eq_refl eq_refl))) _).
    intros items Heq. discriminate Heq.
Defined.

Lemma json2obj_refuses_member_named_self_witness :
  Demo.decode Demo.self_link =
    Ok (JObj [("id", JInt 1); ("self", JStr "/games/1")]) /\
  @APIResponse.json2obj (Demo.env 200 EmptyString)
    (APIResponse.mk Demo.self_link) Demo.self_link = Raise TypeError.
Proof.
  split; [reflexivity |].
  apply (@json2obj_refuses_member_named_self (Demo.env 200 EmptyString)
           (APIResponse.mk Demo.self_link) Demo.self_link
           [("id", JInt 1); ("self", JStr "/games/1")]).
  - reflexivity.
  - right; left; reflexivity.
  - reflexivity.
Defined.

(** ** The query builder *)

Section Slots.
Import APIObject Clauses.

Lemma min_capped (l : Z) : (l >? 500) = true -> Z.min l 500 = 500.
Proof. intros Hgt. apply Z.gtb_lt in Hgt. lia. Qed.

Lemma min_uncapped (l : Z) : (l >? 500) = false -> Z.min l 500 = l.
Proof.
  intros Hle. apply Z.min_l. destruct (Z.gtb_spec l 500); [discriminate | lia].
Qed.

(** The list built by [find] is the filled places of the specification,
    and a line is printed exactly for a limit above 500. *)
Lemma find_data_slots (a : find_args) :
  find_data a =
    (present (clause_slots a),
     if limit a >? 500 then [limit_warning (limit a)] else []).
Proof.
  unfold find_data, clause_slots, fields_text, limit_warning.
  destruct (fields a) as [s | l];
    destruct (truthy (exclude a)), (truthy (search a)),
      (entity_id a) as [i |], (truthy (name a)), (truthy (slug a)),
      (truthy (filters a)), (truthy (sort a));
    destruct (Z.eqb_spec (limit a) 0) as [H0 | H0];
    try (rewrite H0; reflexivity);
    destruct (limit a >? 500) eqn:Hcap;
    first [ rewrite (min_capped _ Hcap) | rewrite (min_uncapped _ Hcap) ];
    reflexivity.
Qed.

End Slots.

Section Find.
Import APIObject Clauses.
Context `{External}.

(** What [call] does to the requests sent: one more, the posted one. *)
Lemma call_sent (c : APIClient.t) (command : string) (data : list string)
      (s : list request) :
  snd (fst (APIClient.call c command data s)) =
    (s ++ [posted (APIClient._headers c) command data])%list.
Proof.
  unfold APIClient.call, posted, APIClient.__str__; cbn.
  destruct data; cbn;
    destruct (requests_post _ _) as [resp | e]; cbn; try reflexivity;
    destruct (errors_check resp); reflexivity.
Qed.

Lemma call_headers (c : APIClient.t) (command : string)
      (data : list string) (s : list request) :
  APIClient._headers (fst (fst (APIClient.call c command data s))) =
    APIClient._headers c /\
  APIClient._api_key (fst (fst (APIClient.call c command data s))) =
    APIClient._api_key c.
Proof.
  unfold APIClient.call; cbn.
  destruct (requests_post _ _) as [resp | e]; cbn; auto.
  destruct (errors_check resp); cbn; auto.
Qed.

Lemma Singleton_call_existing (k : option string) (w : world)
      (c : APIClient.t) :
  instance w = Some c -> Singleton_call k w = (w, Ok c).
Proof. intros Hc. unfold Singleton_call. now rewrite Hc. Qed.

(** [find] with an entity and a client in place: what it sends, prints,
    and leaves in the receiver. *)
Lemma find_effects (self : t) (a : find_args) (w : world) (e : string)
      (c : APIClient.t) :
  entity a = Some e ->
  instance w = Some c ->
  _command (fst (fst (find self a w))) = Some (e ++ "/") /\
  sent (snd (fst (find self a w))) =
    (sent w ++ [posted (APIClient._headers c) (e ++ "/")
                  (fst (find_data a))])%list /\
  stdout (snd (fst (find self a w))) =
    (stdout w ++ snd (find_data a))%list /\
  (exists c', instance (snd (fst (find self a w))) = Some c' /\
              APIClient._headers c' = APIClient._headers c /\
              APIClient._api_key c' = APIClient._api_key c).
Proof.
  intros He Hc. unfold find. rewrite He.
  destruct (find_data a) as [data printed]; cbn [fst snd].
  rewrite (Singleton_call_existing None (print w printed) c) by exact Hc.
  pose proof (call_sent c (e ++ "/") data (sent (print w printed))) as Hs.
  pose proof (call_headers c (e ++ "/") data (sent (print w printed))) as Hh.
  destruct (APIClient.call c (e ++ "/") data (sent (print w printed)))
    as [[c' s'] q]; cbn [fst snd] in Hs, Hh.
  destruct q as [q | ex]; [destruct (one a) |]; cbn;
    (repeat split; [exact Hs | exists c'; tauto]).
Qed.

(** C1.  With an entity given, the list [find] builds starts with the
    fields clause and goes on, in the order of the specification, with
    the exclude, search, id, name, slug, raw filter, limit and sort
    clauses, each one there exactly when its argument is non-empty,
    non-zero or set; that list, joined, is the body of the one request
    [find] posts to the entity's command. *)
Theorem find_clauses_in_fixed_order (self : t) (a : find_args) (w : world)
        (e : string) (c : APIClient.t) :
  entity a = Some e ->
  instance w = Some c ->
  fst (find_data a) = present (clause_slots a) /\
  (exists rest, fst (find_data a) = ("fields " ++ fields_text a) :: rest) /\
  sent (snd (fst (find self a w))) =
    (sent w ++ [posted (APIClient._headers c) (e ++ "/")
                  (present (clause_slots a))])%list.
Proof.
  intros He Hc.
  destruct (find_effects self a w e c He Hc) as (_ & Hs & _).
  rewrite find_data_slots in *; cbn [fst snd] in *.
  repeat split; [eexists; reflexivity | exact Hs].
Qed.

(** Two calls of [find] that differ only in what is printed. *)
Lemma find_same_data (self : t) (a a' : find_args) (w : world) :
  entity a = entity a' ->
  one a = one a' ->
  fst (find_data a) = fst (find_data a') ->
  snd (find self a w) = snd (find self a' w) /\
  fst (fst (find self a w)) = fst (fst (find self a' w)) /\
  sent (snd (fst (find self a w))) = sent (snd (fst (find self a' w))) /\
  instance (snd (fst (find self a w))) =
    instance (snd (fst (find self a' w))).
Proof.
  intros He Ho Hd. unfold find. rewrite <- He, <- Ho.
  destruct (entity a) as [e |]; [| cbn; repeat split; reflexivity].
  destruct (find_data a) as [d p], (find_data a') as [d' p'].
  cbn [fst] in Hd; subst d'.
  unfold Singleton_call; cbn [instance print sent stdout].
  destruct (instance w) as [c |]; [| cbn; repeat split; reflexivity].
  cbn [instance print sent stdout].
  destruct (APIClient.call c (e ++ "/") d (sent w)) as [[c' s'] q].
  destruct q as [q | ex]; [destruct (one a) |]; cbn;
    repeat split; reflexivity.
Qed.

(** What [find] prints, whatever happens next. *)
Lemma find_stdout (self : t) (a : find_args) (w : world) (e : string) :
  entity a = Some e ->
  stdout (snd (fst (find self a w))) =
    (stdout w ++ snd (find_data a))%list.
Proof.
  intros He. unfold find. rewrite He.
  destruct (find_data a) as [d p]; cbn [snd].
  unfold Singleton_call; cbn [instance print sent stdout].
  destruct (instance w) as [c |]; [| reflexivity].
  cbn [instance print sent stdout].
  destruct (APIClient.call c (e ++ "/") d (sent w)) as [[c' s'] q].
  destruct q as [q | ex]; [destruct (one a) |]; reflexivity.
Qed.

Lemma present_app (l1 l2 : list (option string)) :
  present (l1 ++ l2) = (present l1 ++ present l2)%list.
Proof.
  induction l1 as [| [c |] r IH]; cbn;
    [reflexivity | now rewrite IH | exact IH].
Qed.

Lemma slots_split (a : find_args) (l : option string) :
  nth_error (clause_slots a) 7 = Some l ->
  present (clause_slots a) =
    (present (firstn 7 (clause_slots a)) ++ present [l]
     ++ present (skipn 8 (clause_slots a)))%list.
Proof.
  unfold clause_slots; cbn [nth_error firstn skipn].
  intros [= <-]. rewrite <- !present_app. reflexivity.
Qed.

(** C4.  A limit above 500 puts the clause [limit 500] in the list and
    prints one warning line, and the call then goes exactly as the call
    with the limit 500 does: same request, same result; a limit of 500
    gives [limit 500] and prints nothing; a limit of 0 gives no limit
    clause. *)
Theorem find_limit_is_capped (self : t) (a : find_args) (w : world)
        (e : string) :
  entity a = Some e ->
  (500 < limit a ->
     find_data a =
       ((present (firstn 7 (clause_slots a)) ++ ["limit 500"]
         ++ present (skipn 8 (clause_slots a)))%list,
        [limit_warning (limit a)]) /\
     stdout (snd (fst (find self a w))) =
       (stdout w ++ [limit_warning (limit a)])%list /\
     snd (find self a w) = snd (find self (set_limit a 500) w) /\
     sent (snd (fst (find self a w))) =
       sent (snd (fst (find self (set_limit a 500) w)))) /\
  (limit a = 500 ->
     find_data a =
       ((present (firstn 7 (clause_slots a)) ++ ["limit 500"]
         ++ present (skipn 8 (clause_slots a)))%list, []) /\
     stdout (snd (fst (find self a w))) = stdout w) /\
  (limit a = 0 ->
     find_data a =
       ((present (firstn 7 (clause_slots a))
         ++ present (skipn 8 (clause_slots a)))%list, []) /\
     stdout (snd (fst (find self a w))) = stdout w).
Proof.
  intros He.
  pose proof (find_stdout self a w e He) as Hout.
  pose proof (find_data_slots a) as Hd.
  assert (Hsame : 500 < limit a ->
            fst (find_data a) = fst (find_data (set_limit a 500))).
  { intros Hl. rewrite !find_data_slots; cbn [fst].
    unfold clause_slots, fields_text; cbn [limit set_limit exclude search
      entity_id name slug filters sort fields].
    destruct (Z.eqb_spec (limit a) 0); [lia |].
    rewrite Z.min_r by lia. reflexivity. }
  split; [| split]; intros Hl.
  - destruct (find_same_data self a (set_limit a 500) w)
      as (Hr & _ & Hs & _); [reflexivity | reflexivity | auto |].
    repeat split; [| | exact Hr | exact Hs].
    + rewrite Hd, (slots_split a (Some "limit 500")).
      * destruct (Z.gtb_spec (limit a) 500); [reflexivity | lia].
      * cbn. destruct (Z.eqb_spec (limit a) 0); [lia |].
        cbn. rewrite Z.min_r by lia. reflexivity.
    + rewrite Hout, Hd; cbn [snd].
      destruct (Z.gtb_spec (limit a) 500); [reflexivity | lia].
  - split.
    + rewrite Hd, (slots_split a (Some "limit 500")).
      * rewrite Hl. reflexivity.
      * cbn. rewrite Hl. reflexivity.
    + rewrite Hout, Hd; cbn [snd]. rewrite Hl. cbn. apply app_nil_r.
  - split.
    + rewrite Hd, (slots_split a None).
      * rewrite Hl. reflexivity.
      * cbn. rewrite Hl. reflexivity.
    + rewrite Hout, Hd; cbn [snd]. rewrite Hl. cbn. apply app_nil_r.
Qed.

(** C5.  An [entity_id] of 0 gives the clause [where id = 0], in the
    fourth place; so does every id that is set, with its value; the
    clause is left out only for the unset [entity_id]. *)
Theorem find_id_zero_is_an_id (a : find_args) :
  (entity_id a = Some 0 ->
     fst (find_data a) =
       (present (firstn 3 (clause_slots a)) ++ ["where id = 0"]
        ++ present (skipn 4 (clause_slots a)))%list) /\
  (forall i, entity_id a = Some i ->
     fst (find_data a) =
       (present (firstn 3 (clause_slots a))
        ++ [("where id = " ++ str_int i)%string]
        ++ present (skipn 4 (clause_slots a)))%list) /\
  (entity_id a = None ->
     fst (find_data a) =
       (present (firstn 3 (clause_slots a))
        ++ present (skipn 4 (clause_slots a)))%list).
Proof.
  rewrite find_data_slots; cbn [fst].
  unfold clause_slots; cbn [firstn skipn].
  repeat split.
  - intros ->. cbn [option_map].
    change ["where id = 0"] with (present [Some "where id = 0"]).
    rewrite <- !present_app. reflexivity.
  - intros i ->. cbn [option_map].
    change ["where id = " ++ str_int i]
      with (present [Some ("where id = " ++ str_int i)]).
    rewrite <- !present_app. reflexivity.
  - intros ->. cbn [option_map].
    rewrite <- !present_app. reflexivity.
Qed.

Lemma append_assoc (s1 s2 s3 : string) :
  ((s1 ++ s2) ++ s3 = s1 ++ (s2 ++ s3))%string.
Proof. induction s1 as [| ch r IH]; cbn; [reflexivity | now rewrite IH]. Qed.

Lemma append_inv_head (s x y : string) :
  (s ++ x = s ++ y)%string -> x = y.
Proof.
  induction s as [| ch r IH]; cbn; [auto |].
  intros [= Heq]. auto.
Qed.

(** C6.  [meta] after a [find] for the entity [e]: one request, with an
    empty body, whose result is the collection view of the answer; but the
    command it posts to is [e] followed by two slashes and [meta], not
    [e/meta]. *)
Theorem meta_command_has_two_slashes (self : t) (a : find_args) (w : world)
        (e : string) (c : APIClient.t) :
  entity a = Some e ->
  instance w = Some c ->
  let self' := fst (fst (find self a w)) in
  let w' := snd (fst (find self a w)) in
  let req := {| url := V3_ENDPOINT ++ e ++ "//meta"; body := EmptyString;
                req_headers := APIClient._headers c;
                allow_redirects := false |} in
  sent (fst (meta self' w')) = (sent w' ++ [req])%list /\
  url req <> V3_ENDPOINT ++ e ++ "/meta" /\
  (forall resp, requests_post (sent w') req = Ok resp ->
                errors_check resp = None ->
                snd (meta self' w') =
                  APIResponse.as_collection (APIResponse.mk (text resp))).
Proof.
  intros He Hc.
  destruct (find_effects self a w e c He Hc)
    as (Hcmd & _ & _ & c' & Hi & Hh & _).
  cbn zeta.
  destruct (find self a w) as [[self' w'] r]; cbn [fst snd] in *.
  unfold meta. rewrite Hcmd.
  rewrite (Singleton_call_existing None w' c' Hi).
  unfold APIClient.call, APIClient.__str__; cbn.
  rewrite Hh, append_assoc. change ("/" ++ "/meta") with "//meta".
  repeat split.
  - destruct (requests_post _ _) as [resp | ex]; cbn; [| reflexivity].
    destruct (errors_check resp); reflexivity.
  - intros Heq. apply (append_inv_head V3_ENDPOINT) in Heq.
    apply append_inv_head in Heq. discriminate Heq.
  - intros resp Hp Hk. rewrite Hp, Hk. reflexivity.
Qed.

End Find.

Lemma find_clauses_in_fixed_order_witness :
  fst (APIObject.find_data (Demo.query 20)) =
    ["fields id,name"; "exclude summary"; "search " ++ quoted "zelda";
     "where id = 0"; "where rating > 75"; "limit 20"; "sort name asc"] /\
  sent (snd (fst (@APIObject.find (Demo.env 200 Demo.two_records)
                    (APIObject.__init__ "Game") (Demo.query 20)
                    (Demo.world_with_key "k")))) =
    [Clauses.posted (APIClient._headers (Demo.client "k")) "games/"
       (Clauses.present (Clauses.clause_slots (Demo.query 20)))].
Proof.
  destruct (@find_clauses_in_fixed_order (Demo.env 200 Demo.two_records)
              (APIObject.__init__ "Game") (Demo.query 20)
              (Demo.world_with_key "k") "games" (Demo.client "k")
              eq_refl eq_refl) as (Hd & _ & Hs).
  split; [exact Hd | exact Hs].
Defined.

Lemma find_limit_is_capped_witness :
  APIObject.find_data (Demo.query 501) =
    (["fields id,name"; "exclude summary"; "search " ++ quoted "zelda";
      "where id = 0"; "where rating > 75"; "limit 500"; "sort name asc"],
     ["Limit (501) set to maximum allowed (500)."]) /\
  APIObject.find_data (Demo.query 500) =
    (["fields id,name"; "exclude summary"; "search " ++ quoted "zelda";
      "where id = 0"; "where rating > 75"; "limit 500"; "sort name asc"],
     []) /\
  APIObject.find_data (Demo.query 0) =
    (["fields id,name"; "exclude summary"; "search " ++ quoted "zelda";
      "where id = 0"; "where rating > 75"; "sort name asc"], []).
Proof.
  pose (E := Demo.env 200 Demo.two_records).
  pose (g := APIObject.__init__ "Game").
  pose (w := Demo.world_with_key "k").
  destruct (@find_limit_is_capped E g (Demo.query 501) w "games" eq_refl)
    as (Hhigh & _ & _).
  destruct (@find_limit_is_capped E g (Demo.query 500) w "games" eq_refl)
    as (_ & Hmax & _).
  destruct (@find_limit_is_capped E g (Demo.query 0) w "games" eq_refl)
    as (_ & _ & Hzero).
  split; [| split].
  - exact (proj1 (Hhigh eq_refl)).
  - exact (proj1 (Hmax eq_refl)).
  - exact (proj1 (Hzero eq_refl)).
Defined.

Lemma find_id_zero_is_an_id_witness :
  fst (APIObject.find_data (Demo.query 20)) =
    ["fields id,name"; "exclude summary"; "search " ++ quoted "zelda";
     "where id = 0"; "where rating > 75"; "limit 20"; "sort name asc"] /\
  fst (APIObject.find_data
         (APIObject.set_entity_id (Demo.query 20) None)) =
    ["fields id,name"; "exclude summary"; "search " ++ quoted "zelda";
     "where rating > 75"; "limit 20"; "sort name asc"].
Proof.
  split.
  - exact (proj1 (find_id_zero_is_an_id (Demo.query 20)) eq_refl).
  - exact (proj2 (proj2 (find_id_zero_is_an_id
                           (APIObject.set_entity_id (Demo.query 20) None)))
             eq_refl).
Defined.

Lemma meta_command_has_two_slashes_witness :
  sent (fst (@APIObject.meta (Demo.env 200 Demo.one_object)
               (fst (fst (@APIObject.find (Demo.env 200 Demo.one_object)
                            (APIObject.__init__ "Game") (Demo.query 20)
                            (Demo.world_with_key "k"))))
               (snd (fst (@APIObject.find (Demo.env 200 Demo.one_object)
                            (APIObject.__init__ "Game") (Demo.query 20)
                            (Demo.world_with_key "k")))))) =
    (sent (snd (fst (@APIObject.find (Demo.env 200 Demo.one_object)
                       (APIObject.__init__ "Game") (Demo.query 20)
                       (Demo.world_with_key "k"))))
     ++ [{| url := "https://api-v3.igdb.com/games//meta"; body := EmptyString;
            req_headers := APIClient._headers (Demo.client "k");
            allow_redirects := false |}])%list.
Proof.
  exact (proj1 (@meta_command_has_two_slashes (Demo.env 200 Demo.one_object)
                  (APIObject.__init__ "Game") (Demo.query 20)
                  (Demo.world_with_key "k") "games" (Demo.client "k")
                  eq_refl eq_refl)).
Defined.

(** ** The client *)

Section Client.
Context `{External}.

Lemma init_constructed (key : string) (c : APIClient.t) :
  APIClient.__init__ (Some key) = Ok c -> constructed_with key c.
Proof. intros [= <-]. split; reflexivity. Qed.

(** C7.  On a client constructed with the key [key], [call] sends one
    request and no more: a POST to the endpoint followed by the command,
    whose body is the clauses joined by a semicolon and a space with one
    semicolon at the end, or the empty string when there is no clause,
    with the [Accept] and [user-key] headers, redirects off; the client
    keeps its key and headers, so the same holds for the next call. *)
Theorem call_posts_joined_clauses (key : string) (self : APIClient.t)
        (command : string) (data : list string) (s : list request) :
  constructed_with key self ->
  let payload := match data with
                 | [] => EmptyString
                 | _ :: _ => join "; " data ++ ";"
                 end in
  snd (fst (APIClient.call self command data s)) =
    (s ++ [{| url := V3_ENDPOINT ++ command;
              body := payload;
              req_headers :=
                [("Accept", Some "application/json; charset=UTF-8");
                 ("user-key", Some key)];
              allow_redirects := false |}])%list /\
  constructed_with key (fst (fst (APIClient.call self command data s))) /\
  APIClient._data (fst (fst (APIClient.call self command data s))) =
    Some payload /\
  APIClient._command (fst (fst (APIClient.call self command data s))) =
    Some command.
Proof.
  intros [Hkey Hhead]. cbn zeta.
  unfold APIClient.call, APIClient.__str__, constructed_with; cbn.
  rewrite Hkey, Hhead.
  destruct data as [| d r];
    (destruct (requests_post _ _) as [resp | ex];
     [destruct (errors_check resp) |]); cbn; repeat split; reflexivity.
Qed.

(** What [call] returns: the error of the transport, else the error of
    the screen, else the text of the answer in a wrapper. *)
Lemma call_result (self : APIClient.t) (command : string)
      (data : list string) (s : list request) :
  let req := Clauses.posted (APIClient._headers self) command data in
  snd (APIClient.call self command data s) =
    match requests_post s req with
    | Raise e => Raise e
    | Ok resp =>
        match errors_check resp with
        | Some e => Raise e
        | None => Ok (APIResponse.mk (text resp))
        end
    end.
Proof.
  cbn zeta. unfold APIClient.call, Clauses.posted, APIClient.__str__; cbn.
  destruct data;
    (destruct (requests_post _ _) as [resp | ex];
     [destruct (errors_check resp) |]); reflexivity.
Qed.

End Client.

Lemma call_posts_joined_clauses_witness :
  snd (fst (@APIClient.call (Demo.env 200 Demo.no_record) (Demo.client "k")
              "games/" ["fields *"; "limit 5"] [])) =
    [{| url := "https://api-v3.igdb.com/games/";
        body := "fields *; limit 5;";
        req_headers := [("Accept", Some "application/json; charset=UTF-8");
                        ("user-key", Some "k")];
        allow_redirects := false |}] /\
  snd (fst (@APIClient.call (Demo.env 200 Demo.no_record) (Demo.client "k")
              "games/" [] [])) =
    [{| url := "https://api-v3.igdb.com/games/";
        body := EmptyString;
        req_headers := [("Accept", Some "application/json; charset=UTF-8");
                        ("user-key", Some "k")];
        allow_redirects := false |}].
Proof.
  split.
  - exact (proj1 (@call_posts_joined_clauses (Demo.env 200 Demo.no_record)
                    "k" (Demo.client "k") "games/" ["fields *"; "limit 5"] []
                    (conj eq_refl eq_refl))).
  - exact (proj1 (@call_posts_joined_clauses (Demo.env 200 Demo.no_record)
                    "k" (Demo.client "k") "games/" [] []
                    (conj eq_refl eq_refl))).
Defined.

(** C9.  Constructing the client without a key raises the error of
    [__init__], [ValueError('You must set an API key.')], which is the
    configuration error of the specification; nothing is constructed and
    nothing is sent.  With a key the client holds the key and the two
    headers. *)
Theorem client_needs_api_key :
  APIClient.__init__ None = Raise (ValueError "You must set an API key.") /\
  (forall (s : list request) (out : list string),
     Singleton_call None {| instance := None; sent := s; stdout := out |} =
       ({| instance := None; sent := s; stdout := out |},
        Raise (ValueError "You must set an API key."))) /\
  (forall key : string,
     APIClient.__init__ (Some key) =
       Ok {| APIClient._api_key := Some key;
             APIClient._command := None;
             APIClient._data := None;
             APIClient._headers :=
               [("Accept", Some "application/json; charset=UTF-8");
                ("user-key", Some key)] |}).
Proof. repeat split. Qed.

(** ** Entities *)

Section Equality.
Context `{External}.

(** Equality looks at the id and at nothing else. *)
Lemma eq_same_id (a b : APIObject.t) :
  APIObject.id a = APIObject.id b -> APIObject.__eq__ a b = true.
Proof.
  intros Hid. unfold APIObject.__eq__, APIObject.__hash__.
  rewrite Hid. apply Z.eqb_refl.
Qed.

(** C3.  A [Game] and a [Platform] with the id 1 have the same hash, the
    hash of 1, and so [__eq__] answers [True] and [__ne__] answers
    [False], whatever the builtin [hash] is. *)
Theorem eq_of_two_classes_with_one_id :
  APIObject.clsname Demo.game <> APIObject.clsname Demo.platform /\
  APIObject.id Demo.game = APIObject.id Demo.platform /\
  APIObject.__hash__ Demo.game = APIObject.__hash__ Demo.platform /\
  APIObject.__eq__ Demo.game Demo.platform = true /\
  APIObject.__ne__ Demo.game Demo.platform = false.
Proof.
  assert (He : APIObject.__eq__ Demo.game Demo.platform = true)
    by (apply eq_same_id; reflexivity).
  repeat split; try assumption.
  - discriminate.
  - unfold APIObject.__ne__. now rewrite He.
Qed.

End Equality.

(** ** The rating enumeration *)

(** C10.  For every member of [ESRB], [__str__] returns the member's
    value, an [int], and so [str(member)] raises [TypeError]. *)
Theorem esrb_str_raises_type_error (m : ESRB.t) :
  ESRB.__str__ m = PInt (ESRB.value m) /\
  py_str ESRB.__str__ m = Raise TypeError.
Proof. split; reflexivity. Qed.

(** * Further properties *)

(** ** [find] and [meta] as a whole *)

Section FindOutcome.
Import APIObject Clauses.
Context `{External}.

(** [find] past the entity test, with a client in place, step by step. *)
Lemma find_unfold (self : t) (a : find_args) (w : world) (e : string)
      (c : APIClient.t) :
  entity a = Some e ->
  instance w = Some c ->
  find self a w =
    let self' := {| clsname := clsname self; _command := Some (e ++ "/");
                    _id := _id self |} in
    let r := APIClient.call c (e ++ "/") (fst (find_data a)) (sent w) in
    let w' := {| instance := Some (fst (fst r)); sent := snd (fst r);
                 stdout := (stdout w ++ snd (find_data a))%list |} in
    (self', w',
     match snd r with
     | Raise ex => Raise ex
     | Ok query =>
         if one a then APIResponse.as_single_result query
         else APIResponse.as_collection query
     end).
Proof.
  intros He Hc. unfold find. rewrite He.
  destruct (find_data a) as [d p]; cbn [fst snd].
  rewrite (Singleton_call_existing None (print w p) c) by exact Hc.
  cbn [print sent stdout instance].
  destruct (APIClient.call c (e ++ "/") d (sent w)) as [[c' s'] q].
  cbn [fst snd].
  destruct q as [q | ex]; [destruct (one a) |]; reflexivity.
Qed.

(** X1.  Without an entity [find] raises its [ValueError] and does nothing
    else: the receiver keeps its command, no client is looked up, nothing
    is sent and nothing is printed, whatever the other arguments are, a
    limit above 500 included. *)
Theorem find_without_entity (self : t) (a : find_args) (w : world) :
  entity a = None ->
  find self a w =
    (self, w,
     Raise (ValueError ("Plase specify entity (" ++ quoted "game" ++ ", "
                        ++ quoted "platform" ++ ", etc)"))).
Proof. intros He. unfold find. now rewrite He. Qed.

(** X2.  With an entity and a client, what [find] returns is decided by
    the transport and the screen: the transport's error when it raises,
    else the error [errors.check] finds, else the view of the answer's
    text that [one] selects.  In the three cases the request counts as
    sent. *)
Theorem find_propagates_errors (self : t) (a : find_args) (w : world)
        (e : string) (c : APIClient.t) :
  entity a = Some e ->
  instance w = Some c ->
  let req := posted (APIClient._headers c) (e ++ "/") (fst (find_data a)) in
  sent (snd (fst (find self a w))) = (sent w ++ [req])%list /\
  (forall ex, requests_post (sent w) req = Raise ex ->
              snd (find self a w) = Raise ex) /\
  (forall resp ex, requests_post (sent w) req = Ok resp ->
                   errors_check resp = Some ex ->
                   snd (find self a w) = Raise ex) /\
  (forall resp, requests_post (sent w) req = Ok resp ->
                errors_check resp = None ->
                snd (find self a w) =
                  if one a
                  then APIResponse.as_single_result
                         (APIResponse.mk (text resp))
                  else APIResponse.as_collection
                         (APIResponse.mk (text resp))).
Proof.
  intros He Hc. cbn zeta.
  rewrite (find_unfold self a w e c He Hc); cbn [fst snd sent].
  rewrite call_sent, call_result.
  split; [reflexivity |].
  split; [| split].
  - intros ex ->. reflexivity.
  - intros resp ex -> ->. reflexivity.
  - intros resp -> ->. reflexivity.
Qed.



(** X4.  Whatever its arguments and whatever happens, one [find] adds at
    most one request to those sent and at most one line to the output, and
    leaves the earlier ones as they were. *)
Theorem find_sends_at_most_one (self : t) (a : find_args) (w : world) :
  exists (reqs : list request) (lines : list string),
    sent (snd (fst (find self a w))) = (sent w ++ reqs)%list /\
    stdout (snd (fst (find self a w))) = (stdout w ++ lines)%list /\
    (List.length reqs <= 1)%nat /\ (List.length lines <= 1)%nat.
Proof.
  unfold find.
  destruct (entity a) as [e |];
    [| exists [], []; cbn; rewrite !app_nil_r; auto].
  pose proof (find_data_slots a) as Hd.
  destruct (find_data a) as [d p]. injection Hd as _ Hp.
  assert (Hlen : (List.length p <= 1)%nat)
    by (subst p; destruct (limit a >? 500); cbn; lia).
  unfold Singleton_call; cbn [instance print sent stdout].
  destruct (instance w) as [c |].
  - cbn [instance print sent stdout].
    pose proof (call_sent c (e ++ "/") d (sent w)) as Hs.
    destruct (APIClient.call c (e ++ "/") d (sent w)) as [[c' s'] q].
    cbn [fst snd] in Hs.
    exists [posted (APIClient._headers c) (e ++ "/") d], p.
    destruct q as [q | ex]; [destruct (one a) |]; cbn; auto.
  - exists [], p. cbn. rewrite app_nil_r. auto.
Qed.

(** X5.  [find] changes the command of the receiver and nothing else: the
    class and the id stay, so the hash stays and the receiver still equals
    what it was.  The command is set as soon as an entity is given, also
    when the call then fails. *)
Theorem find_keeps_identity (self : t) (a : find_args) (w : world) :
  let self' := fst (fst (find self a w)) in
  clsname self' = clsname self /\
  id self' = id self /\
  __hash__ self' = __hash__ self /\
  __eq__ self' self = true /\
  command self' =
    match entity a with
    | Some e => Some (e ++ "/")
    | None => command self
    end.
Proof.
  cbn zeta.
  assert (Hshape :
    fst (fst (find self a w)) =
      match entity a with
      | Some e => {| clsname := clsname self; _command := Some (e ++ "/");
                     _id := _id self |}
      | None => self
      end).
  { unfold find. destruct (entity a) as [e |]; [| reflexivity].
    destruct (find_data a) as [d p].
    destruct (Singleton_call None (print w p)) as [w1 [c | ex]];
      [| reflexivity].
    destruct (APIClient.call c (e ++ "/") d (sent w1)) as [[c' s'] q].
    destruct q as [q | ex]; [destruct (one a) |]; reflexivity. }
  rewrite Hshape. unfold __eq__, __hash__, id, command.
  destruct (entity a); cbn; rewrite Z.eqb_refl; auto.
Qed.

(** X6.  Neither [find] nor [meta] touches the credentials: the client in
    place afterwards has the key and the headers of the client in place
    before. *)
Theorem find_and_meta_keep_credentials (self : t) (a : find_args)
        (w : world) (c : APIClient.t) :
  instance w = Some c ->
  (exists c', instance (snd (fst (find self a w))) = Some c' /\
              APIClient.api_key c' = APIClient.api_key c /\
              APIClient.headers c' = APIClient.headers c) /\
  (exists c', instance (fst (meta self w)) = Some c' /\
              APIClient.api_key c' = APIClient.api_key c /\
              APIClient.headers c' = APIClient.headers c).
Proof.
  intros Hc. unfold APIClient.api_key, APIClient.headers. split.
  - destruct (entity a) as [e |] eqn:He.
    + rewrite (find_unfold self a w e c He Hc); cbn [fst snd instance].
      destruct (call_headers c (e ++ "/") (fst (find_data a)) (sent w))
        as [Hh Hk].
      eexists; split; [reflexivity | split; assumption].
    + unfold find. rewrite He. cbn. exists c. auto.
  - unfold meta. destruct (_command self) as [cmd |];
      [| cbn; exists c; auto].
    rewrite (Singleton_call_existing None w c Hc).
    destruct (call_headers c (cmd ++ "/meta") [] (sent w)) as [Hh Hk].
    destruct (APIClient.call c (cmd ++ "/meta") [] (sent w))
      as [[c' s'] q]; cbn [fst snd] in Hh, Hk.
    destruct q as [q | ex]; cbn; exists c'; auto.
Qed.

(** X7.  [meta] on an entity whose command was never set, a fresh one for
    instance, raises [TypeError] and does nothing else. *)
Theorem meta_before_find (self : t) (w : world) :
  command self = None -> meta self w = (w, Raise TypeError).
Proof. unfold command, meta. now intros ->. Qed.

End FindOutcome.

(** ** The clause list *)

Section ClauseList.
Import APIObject Clauses.
Context `{External}.

(** X8.  A list of fields and the string of its items joined by commas are
    the same query: [find] does the same with either, in every respect. *)
Theorem find_fields_list_is_joined (self : t) (a : find_args)
        (l : list string) (w : world) :
  find self (set_fields a (FieldsList l)) w =
    find self (set_fields a (FieldsStr (join "," l))) w.
Proof. reflexivity. Qed.

(** X9.  A limit that is not zero and not above 500, a negative one
    included, is sent as it is, in the eighth place, and nothing is
    printed. *)
Theorem find_limit_in_range_is_sent (a : find_args) :
  limit a <> 0 ->
  limit a <= 500 ->
  find_data a =
    ((present (firstn 7 (clause_slots a))
      ++ [("limit " ++ str_int (limit a))%string]
      ++ present (skipn 8 (clause_slots a)))%list, []).
Proof.
  intros Hnz Hle. rewrite find_data_slots.
  rewrite (slots_split a (Some ("limit " ++ str_int (limit a)))).
  - destruct (Z.gtb_spec (limit a) 500); [lia | reflexivity].
  - cbn. destruct (Z.eqb_spec (limit a) 0); [contradiction |].
    cbn. rewrite Z.min_l by lia. reflexivity.
Qed.

(** X10.  The list [find] builds has between one and nine clauses, one for
    [fields] and one for each argument that is set. *)
Theorem find_data_length (a : find_args) :
  let set_s (s : string) := if truthy s then 1%nat else 0%nat in
  List.length (fst (find_data a)) =
    (1 + set_s (exclude a) + set_s (search a)
     + match entity_id a with Some _ => 1 | None => 0 end
     + set_s (name a) + set_s (slug a) + set_s (filters a)
     + (if (limit a =? 0)%Z then 0 else 1) + set_s (sort a))%nat /\
  (1 <= List.length (fst (find_data a)) <= 9)%nat.
Proof.
  cbn zeta. rewrite find_data_slots; cbn [fst].
  unfold clause_slots.
  destruct (truthy (exclude a)), (truthy (search a)), (entity_id a),
    (truthy (name a)), (truthy (slug a)), (truthy (filters a)),
    (limit a =? 0), (truthy (sort a)); cbn; lia.
Qed.

End ClauseList.

(** ** The client *)

Section ClientState.
Context `{External}.

(** X11.  After [call] the client describes the request it has just sent:
    the request is the last one of the trace, its address is [str] of the
    client, its body is the [data] property, its headers are the [headers]
    property, and [command] is the command of the call.  This holds when
    the transport or the screen raises, too. *)
Theorem call_state_is_last_request (self : APIClient.t) (command : string)
        (data : list string) (s : list request) :
  let self' := fst (fst (APIClient.call self command data s)) in
  exists payload,
    APIClient.data self' = Some payload /\
    APIClient.command self' = Some command /\
    APIClient.headers self' = APIClient.headers self /\
    APIClient.api_key self' = APIClient.api_key self /\
    snd (fst (APIClient.call self command data s)) =
      (s ++ [{| url := APIClient.__str__ self'; body := payload;
                req_headers := APIClient.headers self';
                allow_redirects := false |}])%list.
Proof.
  cbn zeta. unfold APIClient.call, APIClient.__str__, APIClient.data,
    APIClient.command, APIClient.headers, APIClient.api_key; cbn.
  destruct data as [| d r];
    (destruct (requests_post _ _) as [resp | ex];
     [destruct (errors_check resp) |]); cbn;
    eexists; repeat split; reflexivity.
Qed.

(** X12.  Two calls in a row leave a trace of two requests in the order of
    the calls, and the client remembers the second. *)
Theorem call_twice (self : APIClient.t) (c1 c2 : string)
        (d1 d2 : list string) (s : list request) :
  let r1 := APIClient.call self c1 d1 s in
  let r2 := APIClient.call (fst (fst r1)) c2 d2 (snd (fst r1)) in
  snd (fst r2) =
    (s ++ [Clauses.posted (APIClient.headers self) c1 d1;
           Clauses.posted (APIClient.headers self) c2 d2])%list /\
  APIClient.command (fst (fst r2)) = Some c2.
Proof.
  cbn zeta. rewrite !call_sent.
  destruct (call_headers self c1 d1 s) as [Hh _]. rewrite Hh.
  rewrite <- app_assoc. split; [reflexivity |].
  unfold APIClient.call, APIClient.command; cbn.
  destruct (requests_post _ _) as [resp | ex]; [| reflexivity].
  destruct (errors_check resp); reflexivity.
Qed.

End ClientState.

(** ** Equality of entities *)

Section EqualityLaws.
Import APIObject.
Context `{External}.

(** X13.  [__eq__] is an equivalence on entities, [__ne__] is its
    negation, and entities that are equal have the same hash. *)
Theorem eq_is_equivalence (a b c : t) :
  __eq__ a a = true /\
  __eq__ a b = __eq__ b a /\
  (__eq__ a b = true -> __eq__ b c = true -> __eq__ a c = true) /\
  __ne__ a b = negb (__eq__ a b) /\
  (__eq__ a b = true <-> __hash__ a = __hash__ b).
Proof.
  unfold __ne__, __eq__. repeat split.
  - apply Z.eqb_refl.
  - apply Z.eqb_sym.
  - rewrite !Z.eqb_eq. congruence.
  - apply Z.eqb_eq.
  - apply Z.eqb_eq.
Qed.

End EqualityLaws.

(** ** The rating enumeration *)

(** X14.  The seven ratings have seven different values, the numbers 1 to
    7 in the order of the declaration. *)
Theorem esrb_values (m n : ESRB.t) :
  1 <= ESRB.value m <= 7 /\
  (ESRB.value m = ESRB.value n -> m = n) /\
  map ESRB.value [ESRB.RP; ESRB.EC; ESRB.E; ESRB.E10plus; ESRB.T; ESRB.M;
                  ESRB.AO] = [1; 2; 3; 4; 5; 6; 7].
Proof.
  repeat split; try (destruct m; cbn; lia).
  destruct m, n; cbn; intros Hv; try reflexivity; discriminate Hv.
Qed.

(** ** Documents the hook refuses *)

Lemma setattr_outcome (attrs : Dict.t pyval) (k : string) (v : pyval) :
  (exists e, refusal e /\ setattr attrs k v = Raise e) \/
  (k <> "__class__" /\ k <> "__dict__" /\ k <> "__weakref__" /\
   setattr attrs k v = Ok (Dict.set attrs k v)).
Proof.
  unfold setattr, refusal.
  destruct (String.eqb_spec k "__class__"); [left; eauto |].
  destruct (String.eqb_spec k "__dict__"); [left; eauto |].
  destruct (String.eqb_spec k "__weakref__"); [left; eauto |].
  right; auto.
Qed.

Lemma Namespace_init_slot (kwargs attrs : Dict.t pyval) (k : string) :
  In k (Dict.keys kwargs) ->
  k = "__class__" \/ k = "__dict__" \/ k = "__weakref__" ->
  exists e, refusal e /\ Namespace_init attrs kwargs = Raise e.
Proof.
  unfold Dict.keys.
  revert attrs; induction kwargs as [| [k0 v0] r IH]; intros attrs Hin Hk;
    [destruct Hin |].
  cbn [Namespace_init].
  destruct (setattr_outcome attrs k0 v0)
    as [(e & He & ->) | (H1 & H2 & H3 & ->)]; cbn [rbind]; [eauto |].
  destruct Hin as [Heq | Hin].
  - cbn in Heq. subst k0. intuition congruence.
  - now apply IH.
Qed.

(** A dictionary with a reserved name is refused. *)
Lemma Namespace_reserved (kwargs : Dict.t pyval) (k : string) :
  In k (Dict.keys kwargs) ->
  reserved k = true ->
  exists e, refusal e /\ Namespace kwargs = Raise e.
Proof.
  intros Hin Hres. unfold Namespace, Dict.mem.
  destruct (Dict.get kwargs "self") eqn:Hself;
    [exists TypeError; split; [now left | reflexivity] |].
  assert (Hslot : k = "__class__" \/ k = "__dict__" \/ k = "__weakref__").
  { unfold reserved in Hres. rewrite !orb_true_iff, !String.eqb_eq in Hres.
    destruct Hres as [[[-> | ?] | ?] | ?]; auto.
    apply get_in in Hin. congruence. }
  destruct (Namespace_init_slot kwargs [] k Hin Hslot) as (e & He & ->).
  cbn [rbind]. eauto.
Qed.

Lemma Namespace_outcome (kwargs : Dict.t pyval) :
  (exists attrs, Namespace kwargs = Ok (PNamespace attrs)) \/
  (exists e, refusal e /\ Namespace kwargs = Raise e).
Proof.
  unfold Namespace. destruct (Dict.mem kwargs "self");
    [right; exists TypeError; split; [now left | reflexivity] |].
  generalize (@nil (string * pyval)) as attrs.
  induction kwargs as [| [k v] r IH]; intros attrs; cbn [Namespace_init].
  - left. now exists attrs.
  - destruct (setattr_outcome attrs k v)
      as [(e & He & ->) | (_ & _ & _ & ->)]; cbn [rbind]; [right; eauto |].
    apply IH.
Qed.

(** A document with a reserved name somewhere is refused, with one of the
    two errors. *)
Lemma loads_not_plain (j : json) :
  plain_keys j = false ->
  exists e, refusal e /\
            loads_with APIResponse._json_object_hook j = Raise e.
Proof.
  induction j as [| b | n | lit | s | items IH | members IH]
    using json_nested_ind; intros Hp; try discriminate Hp.
  - rewrite loads_array. cbn [plain_keys] in Hp.
    assert (Hl : exists e, refusal e /\
                   loads_items APIResponse._json_object_hook items = Raise e).
    { induction IH as [| x r Hx _ IHr]; [discriminate Hp |].
      cbn in Hp. rewrite loads_items_cons.
      destruct (plain_keys x) eqn:Hpx.
      - rewrite (loads_plain x Hpx); cbn [rbind].
        destruct (IHr Hp) as (e & He & ->). cbn. eauto.
      - destruct (Hx eq_refl) as (e & He & ->). cbn. eauto. }
    destruct Hl as (e & He & ->). cbn. eauto.
  - rewrite loads_object. cbn [plain_keys] in Hp.
    destruct (forallb (fun kv => plain_keys (snd kv)) members) eqn:Hvals.
    + (* every member converts; a name is reserved *)
      assert (Hl : loads_members APIResponse._json_object_hook members =
                   Ok (map (fun kv => (fst kv, to_record (snd kv))) members)).
      { clear Hp IH. induction members as [| [k x] r IHr]; [reflexivity |].
        cbn in Hvals. apply andb_prop in Hvals. destruct Hvals as [Hx Hr].
        rewrite loads_members_cons, (loads_plain x Hx); cbn [rbind].
        rewrite (IHr Hr). reflexivity. }
      rewrite Hl; cbn [rbind].
      assert (Hk : exists k, In k (map fst members) /\ reserved k = true).
      { clear Hl IH. induction members as [| [k x] r IHr];
          [discriminate Hp |].
        cbn in Hp, Hvals. apply andb_prop in Hvals.
        destruct Hvals as [Hx Hr]. rewrite Hx, andb_true_r in Hp.
        destruct (reserved k) eqn:Hres.
        - exists k. split; [now left | exact Hres].
        - cbn in Hp. destruct (IHr Hp Hr) as (k' & Hin & Hres').
          exists k'. split; [now right | exact Hres']. }
      destruct Hk as (k & Hin & Hres).
      apply (Namespace_reserved _ k); [| exact Hres].
      apply keys_of_pairs. rewrite map_map. exact Hin.
    + (* a member does not convert *)
      assert (Hl : exists e, refusal e /\
                loads_members APIResponse._json_object_hook members = Raise e).
      { clear Hp. induction IH as [| [k x] r Hx _ IHr];
          [discriminate Hvals |].
        cbn in Hvals. rewrite loads_members_cons. cbn [snd] in Hx.
        destruct (plain_keys x) eqn:Hpx.
        - rewrite (loads_plain x Hpx); cbn [rbind].
          destruct (IHr Hvals) as (e & He & ->). cbn. eauto.
        - destruct (Hx eq_refl) as (e & He & ->). cbn. eauto. }
      destruct Hl as (e & He & ->). cbn. eauto.
Qed.

Section Parsing.
Context `{External}.
Import APIResponse.

(** X15.  For a text the decoder reads, [json2obj] returns a value exactly
    when no object of the document, at any depth, has a member called
    [self], [__class__], [__dict__] or [__weakref__]; the value is then the
    document with its objects as records, its arrays as lists in the same
    order and its scalars unchanged, and otherwise the call raises
    [TypeError] or [AttributeError]. *)
Theorem json2obj_succeeds_exactly_on_plain (self : t) (data : string)
        (j : json) :
  json_decode data = Ok j ->
  (plain_keys j = true -> json2obj self data = Ok (to_record j)) /\
  (plain_keys j = false ->
     exists e, (e = TypeError \/ e = AttributeError) /\
               json2obj self data = Raise e) /\
  (forall v, json2obj self data = Ok v ->
             plain_keys j = true /\ v = to_record j).
Proof.
  intros Hdec. unfold json2obj. rewrite Hdec; cbn [rbind].
  split; [apply loads_plain | split; [apply loads_not_plain |]].
  intros v Hv. destruct (plain_keys j) eqn:Hp.
  - rewrite (loads_plain j Hp) in Hv. injection Hv as <-. auto.
  - destruct (loads_not_plain j Hp) as (e & _ & He). congruence.
Qed.

(** X16.  Reading back a member: when the text is an object without
    reserved names, the attribute of the record named after a member is the
    value [json2obj] gives to that member's own document; of two members
    with one name, the last is read. *)
Theorem json2obj_attribute_round_trip (self : t) (data : string)
        (members : list (string * json)) (k : string) (x : json) :
  json_decode data = Ok (JObj members) ->
  plain_keys (JObj members) = true ->
  field members k = Some x ->
  exists v r,
    json2obj self data = Ok v /\
    loads_with _json_object_hook x = Ok r /\
    getattr v k = Ok r.
Proof.
  intros Hdec Hp Hf.
  exists (to_record (JObj members)), (to_record x).
  split; [| split].
  - unfold json2obj. rewrite Hdec; cbn [rbind]. now apply loads_plain.
  - apply loads_plain.
    cbn [plain_keys] in Hp. rewrite forallb_forall in Hp.
    assert (Hin : exists k', In (k', x) members).
    { clear Hp Hdec. induction members as [| [k0 v0] r IH];
        [discriminate Hf |].
      cbn in Hf. destruct (field r k) as [y |] eqn:Hr.
      - injection Hf as ->. destruct (IH eq_refl) as [k' Hin].
        exists k'. now right.
      - destruct (k =? k0)%string; [| discriminate Hf].
        injection Hf as ->. exists k0. now left. }
    destruct Hin as [k' Hin]. specialize (Hp _ Hin). cbn in Hp.
    apply andb_prop in Hp. tauto.
  - rewrite to_record_getattr, Hf. reflexivity.
Qed.

(** X17.  The collection view of an array: whenever it returns, it returns
    a list with one value for each item of the array, in the order of the
    items, each the value of its item. *)
Theorem as_collection_keeps_order (self : t) (items : list json)
        (v : pyval) :
  json_decode (response self) = Ok (JArr items) ->
  as_collection self = Ok v ->
  exists l,
    v = PList l /\
    List.length l = List.length items /\
    (forall i x, nth_error items i = Some x ->
       exists r, nth_error l i = Some r /\
                 loads_with _json_object_hook x = Ok r).
Proof.
  unfold response, as_collection. rewrite json_response_unfold.
  intros -> Hv. cbn [rbind] in Hv. rewrite loads_array in Hv.
  destruct (loads_items _json_object_hook items) as [l | e] eqn:Hl;
    cbn in Hv; [| discriminate Hv].
  injection Hv as <-. exists l.
  apply loads_items_forall2 in Hl.
  split; [reflexivity | split].
  - symmetry. exact (Forall2_length Hl).
  - induction Hl as [| x0 r0 xs rs Hx _ IHl]; intros i x Hi.
    + destruct i; discriminate Hi.
    + destruct i as [| i]; cbn in Hi |- *.
      * injection Hi as <-. eauto.
      * now apply IHl.
Qed.


End Parsing.

(** ** The further properties on examples *)

Lemma find_without_entity_witness :
  @APIObject.find (Demo.env 200 Demo.no_record) Demo.game
    (APIObject.set_limit APIObject.defaults 501) (Demo.world_with_key "k") =
    (Demo.game, Demo.world_with_key "k",
     Raise (ValueError ("Plase specify entity (" ++ quoted "game" ++ ", "
                        ++ quoted "platform" ++ ", etc)"))).
Proof.
  exact (@find_without_entity (Demo.env 200 Demo.no_record) Demo.game
           (APIObject.set_limit APIObject.defaults 501)
           (Demo.world_with_key "k") eq_refl).
Defined.

Lemma find_propagates_errors_witness :
  snd (@APIObject.find (Demo.env 503 Demo.no_record) Demo.game
         (Demo.query 20) (Demo.world_with_key "k")) =
    Raise (APIError "status 503") /\
  snd (@APIObject.find (Demo.env 200 Demo.two_records) Demo.game
         (Demo.query 20) (Demo.world_with_key "k")) =
    Ok (PList [PNamespace [("id", PInt 1)]; PNamespace [("id", PInt 2)]]).
Proof.
  split.
  - destruct (@find_propagates_errors (Demo.env 503 Demo.no_record)
                Demo.game (Demo.query 20) (Demo.world_with_key "k")
                "games" (Demo.client "k") eq_refl eq_refl)
      as (_ & _ & Hcheck & _).
    exact (Hcheck {| status_code := 503; text := Demo.no_record |}
             (APIError "status 503") eq_refl eq_refl).
  - destruct (@find_propagates_errors (Demo.env 200 Demo.two_records)
                Demo.game (Demo.query 20) (Demo.world_with_key "k")
                "games" (Demo.client "k") eq_refl eq_refl)
      as (_ & _ & _ & Hok).
    exact (Hok {| status_code := 200; text := Demo.two_records |}
             eq_refl eq_refl).
Defined.


Lemma find_and_meta_keep_credentials_witness :
  exists c',
    instance (snd (fst (@APIObject.find (Demo.env 503 Demo.no_record)
                          Demo.game (Demo.query 20)
                          (Demo.world_with_key "k")))) = Some c' /\
    APIClient.api_key c' = Some "k" /\
    APIClient.headers c' = APIClient.headers (Demo.client "k").
Proof.
  exact (proj1 (@find_and_meta_keep_credentials
                  (Demo.env 503 Demo.no_record) Demo.game (Demo.query 20)
                  (Demo.world_with_key "k") (Demo.client "k") eq_refl)).
Defined.

Lemma meta_before_find_witness :
  @APIObject.meta (Demo.env 200 Demo.one_object) (APIObject.__init__ "Game")
    (Demo.world_with_key "k") =
    (Demo.world_with_key "k", Raise TypeError).
Proof.
  exact (@meta_before_find (Demo.env 200 Demo.one_object)
           (APIObject.__init__ "Game") (Demo.world_with_key "k") eq_refl).
Defined.

Lemma find_limit_in_range_is_sent_witness :
  APIObject.find_data (Demo.query (-5)) =
    (["fields id,name"; "exclude summary"; "search " ++ quoted "zelda";
      "where id = 0"; "where rating > 75"; "limit -5"; "sort name asc"],
     []).
Proof.
  refine (find_limit_in_range_is_sent (Demo.query (-5)) _ _).
  - discriminate.
  - discriminate.
Defined.

Lemma eq_is_equivalence_witness :
  @APIObject.__eq__ (Demo.env 200 Demo.no_record) Demo.game Demo.game
    = true /\
  @APIObject.__hash__ (Demo.env 200 Demo.no_record) Demo.game =
    @APIObject.__hash__ (Demo.env 200 Demo.no_record) Demo.platform.
Proof.
  destruct (@eq_is_equivalence (Demo.env 200 Demo.no_record) Demo.game
              Demo.platform Demo.game) as (_ & _ & Htrans & _ & Hhash).
  split.
  - exact (Htrans eq_refl eq_refl).
  - exact (proj1 Hhash eq_refl).
Defined.

Lemma esrb_values_witness : ESRB.value ESRB.T = 5 /\ ESRB.T = ESRB.T.
Proof.
  split; [reflexivity |].
  exact (proj1 (proj2 (esrb_values ESRB.T ESRB.T)) eq_refl).
Defined.

Lemma json2obj_succeeds_exactly_on_plain_witness :
  @APIResponse.json2obj (Demo.env 200 EmptyString)
    (APIResponse.mk Demo.two_records) Demo.two_records =
    Ok (PList [PNamespace [("id", PInt 1)]; PNamespace [("id", PInt 2)]]) /\
  exists e, (e = TypeError \/ e = AttributeError) /\
    @APIResponse.json2obj (Demo.env 200 EmptyString)
      (APIResponse.mk Demo.self_link) Demo.self_link = Raise e.
Proof.
  split.
  - exact (proj1 (@json2obj_succeeds_exactly_on_plain
                    (Demo.env 200 EmptyString)
                    (APIResponse.mk Demo.two_records) Demo.two_records
                    (JArr [JObj [("id", JInt 1)]; JObj [("id", JInt 2)]])
                    eq_refl) eq_refl).
  - exact (proj1 (proj2 (@json2obj_succeeds_exactly_on_plain
                    (Demo.env 200 EmptyString)
                    (APIResponse.mk Demo.self_link) Demo.self_link
                    (JObj [("id", JInt 1); ("self", JStr "/games/1")])
                    eq_refl)) eq_refl).
Defined.

Lemma json2obj_attribute_round_trip_witness :
  exists v r,
    @APIResponse.json2obj (Demo.env 200 EmptyString)
      (APIResponse.mk Demo.twice_named) Demo.twice_named = Ok v /\
    loads_with APIResponse._json_object_hook (JInt 3) = Ok r /\
    getattr v "id" = Ok r.
Proof.
  exact (@json2obj_attribute_round_trip (Demo.env 200 EmptyString)
           (APIResponse.mk Demo.twice_named) Demo.twice_named
           [("id", JInt 1); ("tags", JArr [JStr "a"; JStr "b"]);
            ("id", JInt 3)]
           "id" (JInt 3) eq_refl eq_refl eq_refl).
Defined.

Lemma as_collection_keeps_order_witness :
  exists l,
    PList [PNamespace [("id", PInt 1)]; PNamespace [("id", PInt 2)]]
      = PList l /\
    List.length l = 2%nat /\
    (forall i x,
       nth_error [JObj [("id", JInt 1)]; JObj [("id", JInt 2)]] i = Some x ->
       exists r, nth_error l i = Some r /\
                 loads_with APIResponse._json_object_hook x = Ok r).
Proof.
  exact (@as_collection_keeps_order (Demo.env 200 EmptyString)
           (APIResponse.mk Demo.two_records)
           [JObj [("id", JInt 1)]; JObj [("id", JInt 2)]]
           (PList [PNamespace [("id", PInt 1)]; PNamespace [("id", PInt 2)]])
           eq_refl eq_refl).
Defined.

